(** * M5Tab5 user demo: the ESP32 hardware abstraction layer

    A shallow embedding of [platforms/tab5/main/hal/hal_esp32.cpp] (with the
    class declaration of [hal_esp32.h]) and of the GC2145 Kconfig fragment.

    The C++ code is sequential glue around a vendor SDK.  The SDK is not part
    of the repository, so it is an interface here: a type class [Board] of
    oracles over an abstract world [W].  A member function becomes a
    computation in a small state-and-trace monad: it reads and writes the
    fields of the [HalEsp32] object, steps the world through the oracles and
    emits one event per SDK call or log line it makes. *)

From Stdlib Require Import ZArith List String Bool Lia Sorted.
Import ListNotations.
Open Scope string_scope.
Open Scope Z_scope.

(** [std::vector::push_back]. *)
Definition push_back {A} (v : list A) (x : A) : list A := (v ++ [x])%list.

(** ** Data of the SDK and of the HAL interface *)

(** [esp_err_t] is a C [int]; the SDK defines [ESP_OK] as 0. *)
Definition esp_err_t := Z.
Definition ESP_OK : esp_err_t := 0.

(** [struct dirent]: the two fields the scan reads.  [d_type] is an
    [unsigned char]; [DT_DIR] is 4 in [dirent.h]. *)
Record dirent := { d_name : string; d_type : Z }.
Definition DT_DIR : Z := 4.

(** A [DIR] stream: the entries that successive [readdir] calls on it will
    yield before the null pointer. *)
Definition DIR := list dirent.

(** [hal::HalBase::FileEntry_t]. *)
Record FileEntry_t := { name : string; isDir : bool }.

(** [gpio_num_t] is the pin number; [gpio_drive_cap_t] is the enum of
    [hal/gpio_types.h]. *)
Definition gpio_num_t := Z.
Inductive gpio_drive_cap_t :=
| GPIO_DRIVE_CAP_0 | GPIO_DRIVE_CAP_1 | GPIO_DRIVE_CAP_2 | GPIO_DRIVE_CAP_3.

(** [i2c_master_bus_handle_t] and [esp_lcd_touch_handle_t] are pointers;
    the null pointer is [None] where the code tests for it. *)
Definition i2c_master_bus_handle_t := Z.
Definition esp_lcd_touch_handle_t := Z.

(** What [esp_lcd_touch_get_coordinates] leaves behind when called with
    arrays of length one: its return value and the contents of
    [touch_x[0]] and [touch_y[0]].  These are [uint16_t]; the assignment to
    the [int32_t] coordinates of LVGL widens them and keeps the value. *)
Record touch_sample := { touchpad_pressed : bool; touch_x0 : Z; touch_y0 : Z }.

(** [lv_indev_data_t]: the fields the read callback writes. *)
Inductive lv_indev_state_t := LV_INDEV_STATE_REL | LV_INDEV_STATE_PR.
Record lv_point_t := { px : Z; py : Z }.
Record lv_indev_data_t := { point : lv_point_t; state : lv_indev_state_t }.

(** [struct tm]: the fields the RTC code prints. *)
Record tm := {
  tm_sec : Z; tm_min : Z; tm_hour : Z; tm_mday : Z; tm_mon : Z; tm_year : Z
}.

(** Arguments of a log line or of an SDK call, kept unformatted: integers,
    strings, SDK constants and structures by name, floating-point literals
    by their text. *)
Inductive Arg :=
| AInt (z : Z)
| AStr (s : string)
| ASym (c : string)
| AFlt (text : string).

(** ** Events: one per SDK call or log line *)

Inductive Event :=
| EvInfo (tag fmt : string) (args : list Arg)             (* mclog::tagInfo *)
| EvError (fmt : string) (args : list Arg)                (* mclog::error *)
| EvPrintf (fmt : string) (args : list Arg)
| EvSdInit (mount_point : string) (cs : Z) (r : esp_err_t) (* bsp_sdcard_init *)
| EvSdDeinit (mount_point : string)                       (* bsp_sdcard_deinit *)
| EvOpendir (path : string) (r : option DIR)
| EvReaddir (r : option dirent)
| EvClosedir
| EvProbe (h : i2c_master_bus_handle_t) (address timeout : Z) (r : esp_err_t)
| EvGpioDriveCap (gpio : gpio_num_t) (cap : gpio_drive_cap_t) (r : esp_err_t)
| EvTouchRead (h : esp_lcd_touch_handle_t)
| EvTouchGet (h : esp_lcd_touch_handle_t) (max_points : Z) (r : touch_sample)
| EvRtcGetTime (r : tm)                                   (* rx8130.getTime *)
| EvVendor (fn : string) (args : list Arg) (r : Z)        (* any other SDK call *)
| EvComponent (fn : string) (args : list Arg).            (* member defined elsewhere *)

(** ** The object *)

(** The data members of [class HalEsp32] with their in-class initialisers. *)
Record HalEsp32 := {
  _current_lcd_brightness : Z;                            (* uint8_t *)
  _charge_qc_enable : bool;
  _charge_enable : bool;
  _ext_5v_enable : bool;
  _usba_5v_enable : bool;
  _ext_antenna_enable : bool;
  _sd_card_mounted : bool;
  lvDisp : Z;                                             (* lv_disp_t*, 0 is nullptr *)
  lvKeyboard : Z;
  lvTouchpad : Z                                          (* assigned by init *)
}.

Definition HalEsp32_new : HalEsp32 := {|
  _current_lcd_brightness := 100;
  _charge_qc_enable := false;
  _charge_enable := true;
  _ext_5v_enable := true;
  _usba_5v_enable := true;
  _ext_antenna_enable := false;
  _sd_card_mounted := false;
  lvDisp := 0;
  lvKeyboard := 0;
  lvTouchpad := 0
|}.

Definition with_sd_card_mounted (b : bool) (s : HalEsp32) : HalEsp32 := {|
  _current_lcd_brightness := _current_lcd_brightness s;
  _charge_qc_enable := _charge_qc_enable s;
  _charge_enable := _charge_enable s;
  _ext_5v_enable := _ext_5v_enable s;
  _usba_5v_enable := _usba_5v_enable s;
  _ext_antenna_enable := _ext_antenna_enable s;
  _sd_card_mounted := b;
  lvDisp := lvDisp s;
  lvKeyboard := lvKeyboard s;
  lvTouchpad := lvTouchpad s
|}.

Definition with_current_lcd_brightness (v : Z) (s : HalEsp32) : HalEsp32 := {|
  _current_lcd_brightness := v;
  _charge_qc_enable := _charge_qc_enable s;
  _charge_enable := _charge_enable s;
  _ext_5v_enable := _ext_5v_enable s;
  _usba_5v_enable := _usba_5v_enable s;
  _ext_antenna_enable := _ext_antenna_enable s;
  _sd_card_mounted := _sd_card_mounted s;
  lvDisp := lvDisp s;
  lvKeyboard := lvKeyboard s;
  lvTouchpad := lvTouchpad s
|}.

Definition with_lvDisp (v : Z) (s : HalEsp32) : HalEsp32 := {|
  _current_lcd_brightness := _current_lcd_brightness s;
  _charge_qc_enable := _charge_qc_enable s;
  _charge_enable := _charge_enable s;
  _ext_5v_enable := _ext_5v_enable s;
  _usba_5v_enable := _usba_5v_enable s;
  _ext_antenna_enable := _ext_antenna_enable s;
  _sd_card_mounted := _sd_card_mounted s;
  lvDisp := v;
  lvKeyboard := lvKeyboard s;
  lvTouchpad := lvTouchpad s
|}.

Definition with_lvTouchpad (v : Z) (s : HalEsp32) : HalEsp32 := {|
  _current_lcd_brightness := _current_lcd_brightness s;
  _charge_qc_enable := _charge_qc_enable s;
  _charge_enable := _charge_enable s;
  _ext_5v_enable := _ext_5v_enable s;
  _usba_5v_enable := _usba_5v_enable s;
  _ext_antenna_enable := _ext_antenna_enable s;
  _sd_card_mounted := _sd_card_mounted s;
  lvDisp := lvDisp s;
  lvKeyboard := lvKeyboard s;
  lvTouchpad := v
|}.

(** ** The SDK as an interface *)

(** Every oracle takes the world and returns its result with the next world,
    so a call may answer differently each time it is made. *)
Class Board (W : Type) := {
  bsp_sdcard_init : string -> Z -> W -> esp_err_t * W;
  bsp_sdcard_deinit : string -> W -> W;
  opendir : string -> W -> option DIR * W;
  closedir : W -> W;
  i2c_master_probe : i2c_master_bus_handle_t -> Z -> Z -> W -> esp_err_t * W;
  gpio_set_drive_capability : gpio_num_t -> gpio_drive_cap_t -> W -> esp_err_t * W;
  _lcd_touch_handle : W -> option esp_lcd_touch_handle_t;
  esp_lcd_touch_read_data : esp_lcd_touch_handle_t -> W -> W;
  esp_lcd_touch_get_coordinates : esp_lcd_touch_handle_t -> Z -> W -> touch_sample * W;
  rx8130_getTime : W -> tm * W;
  (** any other SDK function, by name; the result stands for whatever the
      function returns (a status, a handle, a reading) *)
  vendor : string -> list Arg -> W -> Z * W;
  (** a member of [HalEsp32] that is defined in another file of the
      repository: it may write the object as well as the world *)
  component : string -> list Arg -> HalEsp32 -> W -> HalEsp32 * W
}.

(** ** The monad *)

(** The object, the file-scope [static _temp_sensor] (0 is nullptr) and the
    world outside. *)
Record Machine (W : Type) := { self : HalEsp32; _temp_sensor : Z; world : W }.
Arguments self {W} _.
Arguments _temp_sensor {W} _.
Arguments world {W} _.
Arguments Build_Machine {W} _ _ _.

Record Out (W A : Type) := { value : A; final : Machine W; trace : list Event }.
Arguments value {W A} _.
Arguments final {W A} _.
Arguments trace {W A} _.
Arguments Build_Out {W A} _ _ _.

Definition M (W A : Type) := Machine W -> Out W A.

Definition ret {W A} (a : A) : M W A :=
  fun m => {| value := a; final := m; trace := [] |}.

Definition bind {W A B} (c : M W A) (k : A -> M W B) : M W B :=
  fun m =>
    let o1 := c m in
    let o2 := k (value o1) (final o1) in
    {| value := value o2; final := final o2; trace := trace o1 ++ trace o2 |}.

Declare Scope hal_scope.
Delimit Scope hal_scope with hal.
Notation "x <- c ;; k" := (bind c (fun x => k))
  (at level 61, c at next level, right associativity) : hal_scope.
Notation "c ;; k" := (bind c (fun _ => k))
  (at level 61, right associativity) : hal_scope.
Open Scope hal_scope.

(** ** Primitive actions *)

Section Hal.

Context {W : Type} {board : Board W}.

Definition emit (e : Event) : M W unit :=
  fun m => {| value := tt; final := m; trace := [e] |}.

(** Run an oracle on the world and record the call. *)
Definition call {A} (f : W -> A * W) (ev : A -> Event) : M W A :=
  fun m =>
    let r := f (world m) in
    {| value := fst r;
       final := Build_Machine (self m) (_temp_sensor m) (snd r);
       trace := [ev (fst r)] |}.

Definition call_void (f : W -> W) (ev : Event) : M W unit :=
  call (fun w => (tt, f w)) (fun _ => ev).

Definition get_self : M W HalEsp32 :=
  fun m => {| value := self m; final := m; trace := [] |}.

Definition modify_self (f : HalEsp32 -> HalEsp32) : M W unit :=
  fun m => {| value := tt;
              final := Build_Machine (f (self m)) (_temp_sensor m) (world m);
              trace := [] |}.

Definition get_temp_sensor : M W Z :=
  fun m => {| value := _temp_sensor m; final := m; trace := [] |}.

Definition set_temp_sensor (h : Z) : M W unit :=
  fun m => {| value := tt;
              final := Build_Machine (self m) h (world m);
              trace := [] |}.

(** Logging. *)
Definition tagInfo (tag fmt : string) (args : list Arg) : M W unit :=
  emit (EvInfo tag fmt args).
Definition error (fmt : string) (args : list Arg) : M W unit :=
  emit (EvError fmt args).
Definition printf (fmt : string) (args : list Arg) : M W unit :=
  emit (EvPrintf fmt args).

(** An SDK function without a typed oracle of its own. *)
Definition sdk (fn : string) (args : list Arg) : M W Z :=
  call (vendor fn args) (EvVendor fn args).

(** A member function defined in another file. *)
Definition member (fn : string) (args : list Arg) : M W unit :=
  fun m =>
    let r := component fn args (self m) (world m) in
    {| value := tt;
       final := Build_Machine (fst r) (_temp_sensor m) (snd r);
       trace := [EvComponent fn args] |}.

(** [for (int i = start; i < stop; i += step)]: the values [i] takes. *)
Fixpoint count_from (start step : Z) (n : nat) : list Z :=
  match n with
  | O => []
  | S n' => start :: count_from (start + step) step n'
  end.

Definition for_range (start stop step : Z) : list Z :=
  count_from start step (Z.to_nat ((stop - start + step - 1) / step)).

(** The loop itself, threading the local variables [acc] through the body. *)
Fixpoint for_each {I A} (l : list I) (acc : A) (body : I -> A -> M W A) : M W A :=
  match l with
  | [] => ret acc
  | i :: l' => acc' <- body i acc ;; for_each l' acc' body
  end.

(** ** SD card *)

Definition _tag : string := "hal".

(** [while ((entry = readdir(dir)) != nullptr) { ... }]: the recursion is on
    the stream, whose head is what [readdir] returns next. *)
Fixpoint scan_loop (dir : DIR) (file_entries : list FileEntry_t)
  : M W (list FileEntry_t) :=
  match dir with
  | [] => emit (EvReaddir None) ;; ret file_entries
  | entry :: dir' =>
      emit (EvReaddir (Some entry)) ;;
      if String.eqb (d_name entry) "." || String.eqb (d_name entry) ".." then
        scan_loop dir' file_entries
      else
        let file_entry :=
          {| name := d_name entry; isDir := (d_type entry =? DT_DIR)%Z |} in
        scan_loop dir' (push_back file_entries file_entry)
  end.

Definition scanSdCard (dirPath : string) : M W (list FileEntry_t) :=
  let file_entries : list FileEntry_t := [] in
  tagInfo _tag "init sd card" [] ;;
  r <- call (bsp_sdcard_init "/sd" 25) (EvSdInit "/sd" 25) ;;
  if negb (r =? ESP_OK)%Z then
    error "failed to mount sd card" [] ;;
    ret file_entries
  else
    modify_self (with_sd_card_mounted true) ;;
    let target_path := ("/sd/" ++ dirPath)%string in
    dir <- call (opendir target_path) (EvOpendir target_path) ;;
    match dir with
    | None =>
        error "failed to open directory: {}" [AStr target_path] ;;
        call_void (bsp_sdcard_deinit "/sd") (EvSdDeinit "/sd") ;;
        modify_self (with_sd_card_mounted false) ;;
        ret file_entries
    | Some dir =>
        file_entries <- scan_loop dir file_entries ;;
        call_void closedir EvClosedir ;;
        tagInfo _tag "deinit sd card" [] ;;
        call_void (bsp_sdcard_deinit "/sd") (EvSdDeinit "/sd") ;;
        modify_self (with_sd_card_mounted false) ;;
        ret file_entries
    end.

(** [isSdCardMounted]: the body is [return true;] (the read of the member
    is commented out in the source). *)
Definition isSdCardMounted : M W bool :=
  ret true.

(** ** Fixed-width conversions *)

Definition to_uint8 (z : Z) : Z := z mod 256.
Definition to_uint32 (z : Z) : Z := z mod 4294967296.

(** [std::clamp(v, lo, hi)]. *)
Definition clamp (v lo hi : Z) : Z :=
  if v <? lo then lo else if hi <? v then hi else v.

(** ** Touch input *)

(** [lvgl_read_cb(indev, data)]: [data] points to the record LVGL passes in;
    the result is that record as the callback leaves it. *)
Definition lvgl_read_cb (data : lv_indev_data_t) : M W lv_indev_data_t :=
  fun m =>
    match _lcd_touch_handle (world m) with
    | None =>
        ret {| point := point data; state := LV_INDEV_STATE_REL |} m
    | Some h =>
        (call_void (esp_lcd_touch_read_data h) (EvTouchRead h) ;;
         s <- call (esp_lcd_touch_get_coordinates h 1) (EvTouchGet h 1) ;;
         if negb (touchpad_pressed s) then
           ret {| point := point data; state := LV_INDEV_STATE_REL |}
         else
           ret {| point := {| px := touch_x0 s; py := touch_y0 s |};
                  state := LV_INDEV_STATE_PR |}) m
    end.

(** ** GPIO drive strength *)

Definition _driver_gpios : list gpio_num_t :=
  [ 0; 1;
    8; 9; 10; 11; 12; 13; 15;
    22; 23;
    26; 27; 28; 29; 30;
    31; 32;
    39; 40; 41; 42; 43; 44 ].

(** The body of the loop of [set_gpio_output_capability] for one pin. *)
Definition set_one_gpio (gpio : gpio_num_t) : M W unit :=
  r <- call (gpio_set_drive_capability gpio GPIO_DRIVE_CAP_0)
            (EvGpioDriveCap gpio GPIO_DRIVE_CAP_0) ;;
  if (r =? ESP_OK)%Z then
    printf "GPIO %d drive capability set to GPIO_DRIVE_CAP_0\n" [AInt gpio]
  else
    printf "Failed to set GPIO %d drive capability: %s\n"
           [AInt gpio; ASym "esp_err_to_name"; AInt r].

Definition set_gpio_output_capability : M W unit :=
  for_each (for_range 0 (Z.of_nat (List.length _driver_gpios)) 1) tt
    (fun i _ =>
       let gpio := nth (Z.to_nat i) _driver_gpios 0 in
       set_one_gpio gpio).

(** ** System *)

Definition delay (ms : Z) : M W unit :=
  sdk "vTaskDelay" [ASym "pdMS_TO_TICKS"; AInt ms] ;; ret tt.

Definition millis : M W Z :=
  t <- sdk "esp_timer_get_time" [] ;;
  ret (to_uint32 (Z.quot t 1000)).

(** The reading is a [float] converted to [int] on return; the oracle's
    integer stands for the converted value. *)
Definition getCpuTemp : M W Z :=
  ts <- get_temp_sensor ;;
  (if (ts =? 0)%Z then
     h <- sdk "temperature_sensor_install" [ASym "range_min=20"; ASym "range_max=100"] ;;
     set_temp_sensor h ;;
     sdk "temperature_sensor_enable" [AInt h] ;; ret tt
   else ret tt) ;;
  ts <- get_temp_sensor ;;
  temp <- sdk "temperature_sensor_get_celsius" [AInt ts] ;;
  ret temp.

(** ** Display *)

Definition setDisplayBrightness (brightness : Z) : M W unit :=
  modify_self (with_current_lcd_brightness (to_uint8 (clamp brightness 0 100))) ;;
  s <- get_self ;;
  tagInfo "hal" "set display brightness: {}%" [AInt (_current_lcd_brightness s)] ;;
  sdk "bsp_display_brightness_set" [AInt (_current_lcd_brightness s)] ;;
  ret tt.

Definition getDisplayBrightness : M W Z :=
  s <- get_self ;;
  ret (_current_lcd_brightness s).

Definition lvglLock : M W unit :=
  sdk "lvgl_port_lock" [AInt 0] ;; ret tt.

Definition lvglUnlock : M W unit :=
  sdk "lvgl_port_unlock" [] ;; ret tt.

(** ** RTC *)

Definition clearRtcIrq : M W unit :=
  tagInfo _tag "clear rtc irq" [] ;;
  sdk "rx8130.clearIrqFlags" [] ;;
  sdk "rx8130.disableIrq" [] ;;
  ret tt.

Definition tm_args (time : tm) : list Arg :=
  [AInt (tm_year time + 1900); AInt (tm_mon time + 1); AInt (tm_mday time);
   AInt (tm_hour time); AInt (tm_min time); AInt (tm_sec time)].

Definition tm_fields (time : tm) : list Arg :=
  [AInt (tm_sec time); AInt (tm_min time); AInt (tm_hour time);
   AInt (tm_mday time); AInt (tm_mon time); AInt (tm_year time)].

Definition update_system_time : M W unit :=
  tagInfo _tag "update system time" [] ;;
  time <- call rx8130_getTime EvRtcGetTime ;;
  tagInfo _tag "sync to rtc time: {}-{:02d}-{:02d} {:02d}:{:02d}:{:02d}" (tm_args time) ;;
  tv_sec <- sdk "mktime" (tm_fields time) ;;
  let tv_usec := 0 in
  sdk "settimeofday" [AInt tv_sec; AInt tv_usec] ;;
  ret tt.

Definition setRtcTime (time : tm) : M W unit :=
  tagInfo _tag "set rtc time to {}/{}/{} {:02d}:{:02d}:{:02d}" (tm_args time) ;;
  sdk "rx8130.setTime" (tm_fields time) ;;
  delay 50 ;;
  update_system_time.

(** ** Interface *)

Definition usbCDetect : M W bool :=
  r <- sdk "bsp_usb_c_detect" [] ;;
  ret (negb (r =? 0)%Z).

Definition headPhoneDetect : M W bool :=
  r <- sdk "bsp_headphone_detect" [] ;;
  ret (negb (r =? 0)%Z).

(** The body of the inner loop of [i2cScan] for one [(i, j)]. *)
Definition probe_one (i2c_bus_handle : i2c_master_bus_handle_t) (i j : Z)
    (addrs : list Z) : M W (list Z) :=
  sdk "fflush" [ASym "stdout"] ;;
  let address := to_uint8 (i + j) in
  if (address >=? 120)%Z then ret addrs
  else
    r <- call (i2c_master_probe i2c_bus_handle address 50)
              (EvProbe i2c_bus_handle address 50) ;;
    if (r =? ESP_OK)%Z then ret (push_back addrs address) else ret addrs.

Definition i2cScan (isInternal : bool) : M W (list Z) :=
  let addrs : list Z := [] in
  i2c_bus_handle <-
    (if isInternal then sdk "bsp_i2c_get_handle" []
     else sdk "bsp_ext_i2c_get_handle" []) ;;
  for_each (for_range 16 128 16) addrs
    (fun i addrs =>
       for_each (for_range 0 16 1) addrs
         (fun j addrs => probe_one i2c_bus_handle i j addrs)).

Definition initPortAI2c : M W unit :=
  tagInfo _tag "init port a i2c" [] ;;
  sdk "bsp_ext_i2c_init" [] ;; ret tt.

Definition deinitPortAI2c : M W unit :=
  tagInfo _tag "deinit port a i2c" [] ;;
  sdk "bsp_ext_i2c_deinit" [] ;; ret tt.

Definition gpioInitOutput (pin : Z) : M W unit :=
  sdk "gpio_set_pull_mode" [AInt pin; ASym "GPIO_PULLUP_ONLY"] ;;
  sdk "gpio_set_direction" [AInt pin; ASym "GPIO_MODE_OUTPUT"] ;;
  ret tt.

Definition gpioSetLevel (pin : Z) (level : bool) : M W unit :=
  sdk "gpio_set_level" [AInt pin; AInt (if level then 1 else 0)] ;; ret tt.

Definition gpioReset (pin : Z) : M W unit :=
  sdk "gpio_set_level" [AInt pin; AInt 0] ;; ret tt.

(** ** Initialisation *)

(** [setChargeQcEnable], [setChargeEnable], [imu_init], [hid_init] and
    [rs485_init] are members defined in other files.  Structure and
    floating-point arguments of SDK calls are carried by name or text. *)
Definition init : M W unit :=
  tagInfo _tag "init" [] ;;
  tagInfo _tag "camera init" [] ;;
  sdk "bsp_cam_osc_init" [] ;;
  tagInfo _tag "i2c init" [] ;;
  sdk "bsp_i2c_init" [] ;;
  tagInfo _tag "io expander init" [] ;;
  i2c_bus_handle <- sdk "bsp_i2c_get_handle" [] ;;
  sdk "bsp_io_expander_pi4ioe_init" [AInt i2c_bus_handle] ;;
  member "setChargeQcEnable" [AInt 1] ;;
  delay 50 ;;
  member "setChargeEnable" [AInt 1] ;;
  tagInfo _tag "i2c scan" [] ;;
  sdk "bsp_i2c_scan" [] ;;
  tagInfo _tag "codec init" [] ;;
  delay 200 ;;
  sdk "bsp_codec_init" [] ;;
  tagInfo _tag "imu init" [] ;;
  member "imu_init" [] ;;
  tagInfo _tag "ina226 init" [] ;;
  sdk "ina226.begin" [AInt i2c_bus_handle; AInt 65] ;;
  sdk "ina226.configure"
      [ASym "INA226_AVERAGES_16"; ASym "INA226_BUS_CONV_TIME_1100US";
       ASym "INA226_SHUNT_CONV_TIME_1100US"; ASym "INA226_MODE_SHUNT_BUS_CONT"] ;;
  sdk "ina226.calibrate" [AFlt "0.005"; AFlt "8.192"] ;;
  v <- sdk "ina226.readBusVoltage" [] ;;
  tagInfo _tag "bus voltage: {}" [AInt v] ;;
  tagInfo _tag "rx8130 init" [] ;;
  sdk "rx8130.begin" [AInt i2c_bus_handle; AInt 50] ;;
  sdk "rx8130.initBat" [] ;;
  clearRtcIrq ;;
  update_system_time ;;
  tagInfo _tag "display init" [] ;;
  sdk "bsp_reset_tp" [] ;;
  disp <- sdk "bsp_display_start_with_config" [ASym "cfg"] ;;
  modify_self (with_lvDisp disp) ;;
  sdk "lv_display_set_rotation" [AInt disp; ASym "LV_DISPLAY_ROTATION_90"] ;;
  sdk "bsp_display_backlight_on" [] ;;
  tagInfo _tag "create lvgl touchpad indev" [] ;;
  indev <- sdk "lv_indev_create" [] ;;
  modify_self (with_lvTouchpad indev) ;;
  sdk "lv_indev_set_type" [AInt indev; ASym "LV_INDEV_TYPE_POINTER"] ;;
  sdk "lv_indev_set_read_cb" [AInt indev; ASym "lvgl_read_cb"] ;;
  s <- get_self ;;
  sdk "lv_indev_set_display" [AInt indev; AInt (lvDisp s)] ;;
  tagInfo _tag "usb host init" [] ;;
  sdk "bsp_usb_host_start" [ASym "BSP_USB_HOST_POWER_MODE_USB_DEV"; AInt 1] ;;
  tagInfo _tag "hid init" [] ;;
  member "hid_init" [] ;;
  tagInfo _tag "rs485 init" [] ;;
  member "rs485_init" [] ;;
  tagInfo _tag "set gpio output capability" [] ;;
  set_gpio_output_capability ;;
  sdk "bsp_display_unlock" [] ;;
  ret tt.

(** ** The public interface *)

(** One constructor per public member function defined in [hal_esp32.cpp],
    and [Op_elsewhere] for the public members that [hal_esp32.h] declares
    and other files define. *)
Inductive Op :=
| Op_init
| Op_delay (ms : Z)
| Op_millis
| Op_getCpuTemp
| Op_setDisplayBrightness (brightness : Z)
| Op_getDisplayBrightness
| Op_lvglLock
| Op_lvglUnlock
| Op_clearRtcIrq
| Op_setRtcTime (time : tm)
| Op_isSdCardMounted
| Op_scanSdCard (dirPath : string)
| Op_usbCDetect
| Op_headPhoneDetect
| Op_i2cScan (isInternal : bool)
| Op_initPortAI2c
| Op_deinitPortAI2c
| Op_gpioInitOutput (pin : Z)
| Op_gpioSetLevel (pin : Z) (level : bool)
| Op_gpioReset (pin : Z)
| Op_elsewhere (fn : string) (args : list Arg).

Definition discard {A} (c : M W A) : M W unit := c ;; ret tt.

(** A [uint8_t] parameter receives its argument converted. *)
Definition run_op (op : Op) : M W unit :=
  match op with
  | Op_init => init
  | Op_delay ms => delay (to_uint32 ms)
  | Op_millis => discard millis
  | Op_getCpuTemp => discard getCpuTemp
  | Op_setDisplayBrightness b => setDisplayBrightness (to_uint8 b)
  | Op_getDisplayBrightness => discard getDisplayBrightness
  | Op_lvglLock => lvglLock
  | Op_lvglUnlock => lvglUnlock
  | Op_clearRtcIrq => clearRtcIrq
  | Op_setRtcTime time => setRtcTime time
  | Op_isSdCardMounted => discard isSdCardMounted
  | Op_scanSdCard dirPath => discard (scanSdCard dirPath)
  | Op_usbCDetect => discard usbCDetect
  | Op_headPhoneDetect => discard headPhoneDetect
  | Op_i2cScan isInternal => discard (i2cScan isInternal)
  | Op_initPortAI2c => initPortAI2c
  | Op_deinitPortAI2c => deinitPortAI2c
  | Op_gpioInitOutput pin => gpioInitOutput (to_uint8 pin)
  | Op_gpioSetLevel pin level => gpioSetLevel (to_uint8 pin) level
  | Op_gpioReset pin => gpioReset (to_uint8 pin)
  | Op_elsewhere fn args => member fn args
  end.

(** A client session: operations one after the other. *)
Fixpoint run_ops (ops : list Op) : M W unit :=
  match ops with
  | [] => ret tt
  | op :: ops' => run_op op ;; run_ops ops'
  end.

End Hal.

(** A freshly constructed object in a world [w]. *)
Definition boot {W} (w : W) : Machine W :=
  {| self := HalEsp32_new; _temp_sensor := 0; world := w |}.

(** ** The GC2145 Kconfig fragment *)

Module Kconfig.

(** The members of the two [choice] blocks. *)
Inductive MipiFmt :=
| MIPI_RGB565_1600x1200_7FPS
| MIPI_RGB565_800x600_30FPS.

Inductive DvpFmt :=
| DVP_YUV422_640x480_15FPS
| DVP_YUV422_1600x1200_13FPS
| DVP_YUV422_800x600_20FPS.

Definition MipiFmt_eqb (a b : MipiFmt) : bool :=
  match a, b with
  | MIPI_RGB565_1600x1200_7FPS, MIPI_RGB565_1600x1200_7FPS => true
  | MIPI_RGB565_800x600_30FPS, MIPI_RGB565_800x600_30FPS => true
  | _, _ => false
  end.

Definition DvpFmt_eqb (a b : DvpFmt) : bool :=
  match a, b with
  | DVP_YUV422_640x480_15FPS, DVP_YUV422_640x480_15FPS => true
  | DVP_YUV422_1600x1200_13FPS, DVP_YUV422_1600x1200_13FPS => true
  | DVP_YUV422_800x600_20FPS, DVP_YUV422_800x600_20FPS => true
  | _, _ => false
  end.

(** What the user has set for each symbol with a prompt; [None] leaves the
    symbol at its default. *)
Record Selection := {
  sel_CAMERA_GC2145 : option bool;
  sel_AUTO_DETECT : option bool;
  sel_AUTO_DETECT_MIPI_INTERFACE_SENSOR : option bool;
  sel_AUTO_DETECT_DVP_INTERFACE_SENSOR : option bool;
  sel_MIPI_DEFAULT_FMT : option MipiFmt;
  sel_DVP_DEFAULT_FMT : option DvpFmt
}.

(** A [bool] symbol inside [if dep]: [n] when the dependency is off,
    otherwise the user's value or the [default] line. *)
Definition bool_symbol (dep default : bool) (sel : option bool) : bool :=
  if dep then match sel with Some b => b | None => default end else false.

(** A [choice] inside [if dep]: no member when the dependency is off,
    otherwise the user's member or the [default] line. *)
Definition choice_symbol {A} (dep : bool) (default : A) (sel : option A) : option A :=
  if dep then Some (match sel with Some a => a | None => default end) else None.

(** An [int] symbol without prompt: the value of the first [default v if c]
    line whose condition is [y]. *)
Fixpoint first_default (lines : list (Z * bool)) : option Z :=
  match lines with
  | [] => None
  | (v, c) :: rest => if c then Some v else first_default rest
  end.

Section Symbols.

Variable s : Selection.

Definition CAMERA_GC2145 : bool :=
  bool_symbol true false (sel_CAMERA_GC2145 s).

Definition CAMERA_GC2145_AUTO_DETECT : bool :=
  bool_symbol CAMERA_GC2145 true (sel_AUTO_DETECT s).

Definition CAMERA_GC2145_AUTO_DETECT_MIPI_INTERFACE_SENSOR : bool :=
  bool_symbol CAMERA_GC2145_AUTO_DETECT true
    (sel_AUTO_DETECT_MIPI_INTERFACE_SENSOR s).

Definition CAMERA_GC2145_AUTO_DETECT_DVP_INTERFACE_SENSOR : bool :=
  bool_symbol CAMERA_GC2145_AUTO_DETECT false
    (sel_AUTO_DETECT_DVP_INTERFACE_SENSOR s).

Definition CAMERA_GC2145_MIPI_DEFAULT_FMT : option MipiFmt :=
  choice_symbol CAMERA_GC2145 MIPI_RGB565_800x600_30FPS (sel_MIPI_DEFAULT_FMT s).

(** A member of a choice is [y] exactly when it is the chosen one. *)
Definition mipi_member (f : MipiFmt) : bool :=
  match CAMERA_GC2145_MIPI_DEFAULT_FMT with
  | Some c => MipiFmt_eqb c f
  | None => false
  end.

Definition CAMERA_GC2145_MIPI_IF_FORMAT_INDEX_DAFAULT : option Z :=
  if CAMERA_GC2145 then
    first_default [ (0, mipi_member MIPI_RGB565_1600x1200_7FPS);
                    (1, mipi_member MIPI_RGB565_800x600_30FPS) ]
  else None.

Definition CAMERA_GC2145_DVP_DEFAULT_FMT : option DvpFmt :=
  choice_symbol CAMERA_GC2145 DVP_YUV422_640x480_15FPS (sel_DVP_DEFAULT_FMT s).

Definition dvp_member (f : DvpFmt) : bool :=
  match CAMERA_GC2145_DVP_DEFAULT_FMT with
  | Some c => DvpFmt_eqb c f
  | None => false
  end.

Definition CAMERA_GC2145_DVP_IF_FORMAT_INDEX_DAFAULT : option Z :=
  if CAMERA_GC2145 then
    first_default [ (2, dvp_member DVP_YUV422_640x480_15FPS);
                    (3, dvp_member DVP_YUV422_1600x1200_13FPS);
                    (4, dvp_member DVP_YUV422_800x600_20FPS) ]
  else None.

End Symbols.

(** Nothing set by the user. *)
Definition untouched : Selection := {|
  sel_CAMERA_GC2145 := None;
  sel_AUTO_DETECT := None;
  sel_AUTO_DETECT_MIPI_INTERFACE_SENSOR := None;
  sel_AUTO_DETECT_DVP_INTERFACE_SENSOR := None;
  sel_MIPI_DEFAULT_FMT := None;
  sel_DVP_DEFAULT_FMT := None
|}.

(** GC2145 switched on and nothing else set. *)
Definition enabled_only : Selection := {|
  sel_CAMERA_GC2145 := Some true;
  sel_AUTO_DETECT := None;
  sel_AUTO_DETECT_MIPI_INTERFACE_SENSOR := None;
  sel_AUTO_DETECT_DVP_INTERFACE_SENSOR := None;
  sel_MIPI_DEFAULT_FMT := None;
  sel_DVP_DEFAULT_FMT := None
|}.

End Kconfig.

(** ** A simulated board

    A concrete world to run the model on: an SD card that mounts or not,
    directories by path, the I2C addresses that answer, the pins whose
    configuration fails, and the touch controller. *)

Module Sim.

Record World := {
  sd_status : esp_err_t;
  sd_dirs : list (string * DIR);
  i2c_devices : list Z;
  bad_gpios : list Z;
  touch_handle : option esp_lcd_touch_handle_t;
  touch_now : touch_sample
}.

Fixpoint lookup_dir (path : string) (dirs : list (string * DIR)) : option DIR :=
  match dirs with
  | [] => None
  | (p, d) :: rest => if String.eqb p path then Some d else lookup_dir path rest
  end.

Definition mem (z : Z) (l : list Z) : bool := existsb (Z.eqb z) l.

#[global] Instance board : Board World := {|
  bsp_sdcard_init := fun _ _ w => (sd_status w, w);
  bsp_sdcard_deinit := fun _ w => w;
  opendir := fun path w => (lookup_dir path (sd_dirs w), w);
  closedir := fun w => w;
  i2c_master_probe := fun _ address _ w =>
    (if mem address (i2c_devices w) then ESP_OK else 263, w);
  gpio_set_drive_capability := fun gpio _ w =>
    (if mem gpio (bad_gpios w) then 258 else ESP_OK, w);
  _lcd_touch_handle := touch_handle;
  esp_lcd_touch_read_data := fun _ w => w;
  esp_lcd_touch_get_coordinates := fun _ _ w => (touch_now w, w);
  rx8130_getTime := fun w =>
    ({| tm_sec := 0; tm_min := 0; tm_hour := 12; tm_mday := 1; tm_mon := 0;
        tm_year := 125 |}, w);
  vendor := fun _ _ w => (1, w);
  component := fun _ _ s w => (s, w)
|}.

Definition photos : DIR :=
  [ {| d_name := "."; d_type := 4 |};
    {| d_name := ".."; d_type := 4 |};
    {| d_name := "a.jpg"; d_type := 8 |};
    {| d_name := "raw"; d_type := 4 |};
    {| d_name := "b.jpg"; d_type := 8 |} ].

(** A card with one directory, the power monitor and the RTC on the bus,
    and a finger on the panel. *)
Definition bench : World := {|
  sd_status := ESP_OK;
  sd_dirs := [("/sd/photos", photos)];
  i2c_devices := [50; 65];
  bad_gpios := [15];
  touch_handle := Some 7;
  touch_now := {| touchpad_pressed := true; touch_x0 := 640; touch_y0 := 360 |}
|}.

(** No card in the slot. *)
Definition no_card : World := {|
  sd_status := 263;
  sd_dirs := [];
  i2c_devices := [];
  bad_gpios := [];
  touch_handle := None;
  touch_now := {| touchpad_pressed := false; touch_x0 := 0; touch_y0 := 0 |}
|}.

End Sim.

(** The bench with a second directory that holds only "." and "..". *)
Definition bench_with_empty_dir : Sim.World := {|
  Sim.sd_status := ESP_OK;
  Sim.sd_dirs := [ ("/sd/photos", Sim.photos);
                   ("/sd/empty", [ {| d_name := "."; d_type := 4 |};
                                   {| d_name := ".."; d_type := 4 |} ]) ];
  Sim.i2c_devices := [50; 65];
  Sim.bad_gpios := [];
  Sim.touch_handle := Some 7;
  Sim.touch_now := {| touchpad_pressed := false; touch_x0 := 0; touch_y0 := 0 |}
|}.

(** ** Reading a trace *)

(** The entries [readdir] yielded, in order. *)
Fixpoint readdir_yields (tr : list Event) : list dirent :=
  match tr with
  | [] => []
  | EvReaddir (Some e) :: tr' => e :: readdir_yields tr'
  | _ :: tr' => readdir_yields tr'
  end.

(** The addresses [i2c_master_probe] was called on, each with the status it
    reported, in order. *)
Fixpoint probes (tr : list Event) : list (Z * esp_err_t) :=
  match tr with
  | [] => []
  | EvProbe _ address _ r :: tr' => (address, r) :: probes tr'
  | _ :: tr' => probes tr'
  end.

(** The calls of [gpio_set_drive_capability], in order. *)
Fixpoint gpio_calls (tr : list Event) : list (gpio_num_t * gpio_drive_cap_t * esp_err_t) :=
  match tr with
  | [] => []
  | EvGpioDriveCap gpio cap r :: tr' => (gpio, cap, r) :: gpio_calls tr'
  | _ :: tr' => gpio_calls tr'
  end.

(** Resources held: open directory handles and mounts of the card.  A
    release of something that is not held is an error ([None]). *)
Record Held := { dirs_open : nat; mounts : nat }.

Definition account (h : option Held) (e : Event) : option Held :=
  match h with
  | None => None
  | Some h =>
      match e with
      | EvSdInit _ _ r =>
          if (r =? ESP_OK)%Z
          then Some {| dirs_open := dirs_open h; mounts := S (mounts h) |}
          else Some h
      | EvSdDeinit _ =>
          match mounts h with
          | O => None
          | S n => Some {| dirs_open := dirs_open h; mounts := n |}
          end
      | EvOpendir _ (Some _) =>
          Some {| dirs_open := S (dirs_open h); mounts := mounts h |}
      | EvClosedir =>
          match dirs_open h with
          | O => None
          | S n => Some {| dirs_open := n; mounts := mounts h |}
          end
      | _ => Some h
      end
  end.

Definition held_after (tr : list Event) : option Held :=
  fold_left account tr (Some {| dirs_open := 0; mounts := 0 |}).

(** The entries the scan keeps, and the record it builds from one. *)
Definition is_dot (e : dirent) : bool :=
  String.eqb (d_name e) "." || String.eqb (d_name e) "..".

Definition file_entry_of (e : dirent) : FileEntry_t :=
  {| name := d_name e; isDir := (d_type e =? DT_DIR)%Z |}.



(** A probe that was answered. *)
Definition responded (p : Z * esp_err_t) : bool := (snd p =? ESP_OK)%Z.

(** The 7-bit addresses from [lo] to [hi] inclusive, ascending. *)
Definition addresses (lo hi : Z) : list Z :=
  map (fun k => lo + Z.of_nat k) (seq 0 (Z.to_nat (hi - lo + 1))).

(** ** The three ways through [scanSdCard] *)

Inductive scan_outcome {W} (dirPath : string) (m : Machine W)
    (o : Out W (list FileEntry_t)) : Prop :=
| mount_failed (r : esp_err_t) :
    r <> ESP_OK ->
    value o = [] ->
    self (final o) = self m ->
    trace o = [ EvInfo "hal" "init sd card" [];
                EvSdInit "/sd" 25 r;
                EvError "failed to mount sd card" [] ] ->
    scan_outcome dirPath m o
| open_failed :
    value o = [] ->
    self (final o) = with_sd_card_mounted false (with_sd_card_mounted true (self m)) ->
    trace o = [ EvInfo "hal" "init sd card" [];
                EvSdInit "/sd" 25 ESP_OK;
                EvOpendir ("/sd/" ++ dirPath) None;
                EvError "failed to open directory: {}" [AStr ("/sd/" ++ dirPath)];
                EvSdDeinit "/sd" ] ->
    scan_outcome dirPath m o
| scanned (dir : DIR) :
    value o = map file_entry_of (filter (fun e => negb (is_dot e)) dir) ->
    self (final o) = with_sd_card_mounted false (with_sd_card_mounted true (self m)) ->
    trace o = ([ EvInfo "hal" "init sd card" [];
                 EvSdInit "/sd" 25 ESP_OK;
                 EvOpendir ("/sd/" ++ dirPath) (Some dir) ]
               ++ (map EvReaddir (map Some dir) ++ [EvReaddir None])
               ++ [ EvClosedir;
                    EvInfo "hal" "deinit sd card" [];
                    EvSdDeinit "/sd" ])%list ->
    scan_outcome dirPath m o.



(** A computation that leaves the part [f] of the object as it found it. *)
Definition keeps {W A X} (f : HalEsp32 -> X) (c : M W A) : Prop :=
  forall m, f (self (final (c m))) = f (self m).

(** ** Kinds of event *)

Definition is_sd_event (e : Event) : bool :=
  match e with
  | EvSdInit _ _ _ | EvSdDeinit _ | EvOpendir _ _ | EvReaddir _ | EvClosedir => true
  | _ => false
  end.

Definition is_probe_event (e : Event) : bool :=
  match e with EvProbe _ _ _ _ => true | _ => false end.

Definition is_gpio_event (e : Event) : bool :=
  match e with EvGpioDriveCap _ _ _ => true | _ => false end.

Definition is_touch_event (e : Event) : bool :=
  match e with EvTouchRead _ | EvTouchGet _ _ _ => true | _ => false end.

Definition is_error_event (e : Event) : bool :=
  match e with EvError _ _ => true | _ => false end.


(** A computation all of whose events pass the test [ok]. *)
Definition emits_only {W A} (ok : Event -> bool) (c : M W A) : Prop :=
  forall m, forallb ok (trace (c m)) = true.

(** The operations whose code is in [hal_esp32.cpp]. *)
Definition defined_here (op : Op) : bool :=
  match op with Op_elsewhere _ _ => false | _ => true end.


(** The data members other than [_sd_card_mounted], and other than
    [_current_lcd_brightness]. *)
Definition apart_from_sd_card_mounted (s : HalEsp32) :=
  (_current_lcd_brightness s, _charge_qc_enable s, _charge_enable s,
   _ext_5v_enable s, _usba_5v_enable s, _ext_antenna_enable s,
   lvDisp s, lvKeyboard s, lvTouchpad s).

Definition apart_from_brightness (s : HalEsp32) :=
  (_charge_qc_enable s, _charge_enable s, _ext_5v_enable s, _usba_5v_enable s,
   _ext_antenna_enable s, _sd_card_mounted s, lvDisp s, lvKeyboard s, lvTouchpad s).

(** What a scan of the bus through the handle [h] may emit after it has
    fetched the handle: flushes of [stdout] and probes through [h] with a
    timeout of 50 ms. *)
Definition scan_event_on (h : i2c_master_bus_handle_t) (e : Event) : bool :=
  match e with
  | EvProbe h' _ timeout _ => (h' =? h)%Z && (timeout =? 50)%Z
  | EvVendor fn _ _ => String.eqb fn "fflush"
  | _ => false
  end.

(** The name of the SDK function that gives the handle of the chosen bus. *)
Definition bus_getter (isInternal : bool) : string :=
  if isInternal then "bsp_i2c_get_handle" else "bsp_ext_i2c_get_handle".

(** Equality of SDK-call arguments. *)
Definition Arg_eqb (a b : Arg) : bool :=
  match a, b with
  | AInt x, AInt y => (x =? y)%Z
  | AStr x, AStr y => String.eqb x y
  | ASym x, ASym y => String.eqb x y
  | AFlt x, AFlt y => String.eqb x y
  | _, _ => false
  end.

Fixpoint args_eqb (a b : list Arg) : bool :=
  match a, b with
  | [], [] => true
  | x :: a', y :: b' => Arg_eqb x y && args_eqb a' b'
  | _, _ => false
  end.

(** The SDK functions of [init] that give or take an I2C bus handle. *)
Definition touches_i2c_handle (fn : string) : bool :=
  String.eqb fn "bsp_i2c_get_handle" || String.eqb fn "bsp_ext_i2c_get_handle"
  || String.eqb fn "bsp_io_expander_pi4ioe_init" || String.eqb fn "ina226.begin"
  || String.eqb fn "rx8130.begin".

Definition before_the_handle (e : Event) : bool :=
  match e with
  | EvVendor fn _ _ => negb (touches_i2c_handle fn)
  | _ => true
  end.

(** After the handle [h] has been fetched: no handle is fetched again, and
    the three devices are started on [h], the INA226 at 0x41 and the RX8130
    at 0x32. *)
Definition on_the_handle (h : Z) (e : Event) : bool :=
  match e with
  | EvVendor fn args _ =>
      if String.eqb fn "bsp_io_expander_pi4ioe_init" then args_eqb args [AInt h]
      else if String.eqb fn "ina226.begin" then args_eqb args [AInt h; AInt 65]
      else if String.eqb fn "rx8130.begin" then args_eqb args [AInt h; AInt 50]
      else negb (touches_i2c_handle fn)
  | _ => true
  end.

Definition starts_devices_on_one_handle (tr : list Event) : Prop :=
  exists before h rest r1 r2 r3,
    tr = (before ++ EvVendor "bsp_i2c_get_handle" [] h :: rest)%list
    /\ forallb before_the_handle before = true
    /\ forallb (on_the_handle h) rest = true
    /\ In (EvVendor "bsp_io_expander_pi4ioe_init" [AInt h] r1) rest
    /\ In (EvVendor "ina226.begin" [AInt h; AInt 65] r2) rest
    /\ In (EvVendor "rx8130.begin" [AInt h; AInt 50] r3) rest.

(** A computation that leaves the file-scope sensor handle as it found
    it. *)
Definition keeps_temp_sensor {W A} (c : M W A) : Prop :=
  forall m, _temp_sensor (final (c m)) = _temp_sensor m.

Definition is_install_event (e : Event) : bool :=
  match e with
  | EvVendor fn _ _ => String.eqb fn "temperature_sensor_install"
  | _ => false
  end.

(** A call of [bsp_display_brightness_set] must carry one integer between
    0 and 100; any other event passes. *)
Definition backlight_call_ok (e : Event) : bool :=
  match e with
  | EvVendor fn args _ =>
      if String.eqb fn "bsp_display_brightness_set"
      then match args with
           | [AInt v] => (0 <=? v)%Z && (v <=? 100)%Z
           | _ => false
           end
      else true
  | _ => true
  end.

(** * Properties *)

Section Facts.

Context {W : Type} {board : Board W}.

(** ** The monad *)

Lemma value_bind {A B} (c : M W A) (k : A -> M W B) m :
  value (bind c k m) = value (k (value (c m)) (final (c m))).
Proof. reflexivity. Qed.

Lemma final_bind {A B} (c : M W A) (k : A -> M W B) m :
  final (bind c k m) = final (k (value (c m)) (final (c m))).
Proof. reflexivity. Qed.

Lemma trace_bind {A B} (c : M W A) (k : A -> M W B) m :
  trace (bind c k m) = (trace (c m) ++ trace (k (value (c m)) (final (c m))))%list.
Proof. reflexivity. Qed.

(** ** The directory loop *)

Lemma scan_loop_trace dir : forall acc (m : Machine W),
  trace (scan_loop dir acc m) = (map EvReaddir (map Some dir) ++ [EvReaddir None])%list.
Proof.
  induction dir as [|e dir IH]; intros acc m; simpl.
  - reflexivity.
  - f_equal.
    destruct (String.eqb (d_name e) "." || String.eqb (d_name e) ".."); apply IH.
Qed.

Lemma scan_loop_final dir : forall acc (m : Machine W), final (scan_loop dir acc m) = m.
Proof.
  induction dir as [|e dir IH]; intros acc m; simpl.
  - reflexivity.
  - destruct (String.eqb (d_name e) "." || String.eqb (d_name e) ".."); apply IH.
Qed.

Lemma scan_loop_value dir : forall acc (m : Machine W),
  value (scan_loop dir acc m)
  = (acc ++ map file_entry_of (filter (fun e => negb (is_dot e)) dir))%list.
Proof.
  induction dir as [|e dir IH]; intros acc m; simpl.
  - symmetry. apply app_nil_r.
  - unfold is_dot at 1.
    destruct (String.eqb (d_name e) "." || String.eqb (d_name e) ".."); simpl.
    + apply IH.
    + rewrite IH. unfold push_back. rewrite <- app_assoc. reflexivity.
Qed.

Lemma scanSdCard_outcome dirPath (m : Machine W) :
  scan_outcome dirPath m (scanSdCard dirPath m).
Proof.
  unfold scanSdCard, tagInfo, error, call_void.
  remember ("/sd/" ++ dirPath)%string as p eqn:Hp.
  set (o := bind _ _ m).
  destruct (Z.eqb_spec (fst (bsp_sdcard_init "/sd" 25 (world m))) ESP_OK) as [Hok | Hbad].
  - destruct (fst (opendir p (snd (bsp_sdcard_init "/sd" 25 (world m)))))
      as [dir |] eqn:Hdir.
    + apply scanned with (dir := dir); try rewrite <- Hp; subst o; cbn;
        rewrite Hok; cbn; rewrite Hdir; cbn.
      * rewrite scan_loop_value. reflexivity.
      * rewrite scan_loop_final. reflexivity.
      * rewrite scan_loop_trace. reflexivity.
    + apply open_failed; try rewrite <- Hp; subst o; cbn; rewrite Hok; cbn;
        rewrite Hdir; reflexivity.
  - apply mount_failed with (r := fst (bsp_sdcard_init "/sd" 25 (world m)));
      [exact Hbad | subst o; cbn ..];
      destruct (Z.eqb_spec (fst (bsp_sdcard_init "/sd" 25 (world m))) ESP_OK);
      try contradiction; reflexivity.
Qed.

Lemma readdir_yields_stream (dir : DIR) (rest : list Event) :
  readdir_yields (map EvReaddir (map Some dir) ++ rest) = (dir ++ readdir_yields rest)%list.
Proof.
  induction dir as [|e dir IH]; simpl; [reflexivity | now rewrite IH].
Qed.

Lemma account_readdir (l : list (option dirent)) (rest : list Event) (h : option Held) :
  fold_left account (map EvReaddir l ++ rest) h = fold_left account rest h.
Proof.
  revert h. induction l as [|x l IH]; intros h; simpl; [reflexivity |].
  rewrite IH. destruct h; reflexivity.
Qed.

Lemma in_readdir_events (e : Event) (l : list (option dirent)) :
  In e (map EvReaddir l) -> exists r, e = EvReaddir r.
Proof.
  intros H. apply in_map_iff in H. destruct H as [r [Hr _]]. eauto.
Qed.

(** Membership in the trace of a completed scan, event by event. *)
Lemma in_scanned_trace (e : Event) (p : string) (dir : DIR) :
  In e ([ EvInfo "hal" "init sd card" []; EvSdInit "/sd" 25 ESP_OK;
          EvOpendir p (Some dir) ]
        ++ (map EvReaddir (map Some dir) ++ [EvReaddir None])
        ++ [ EvClosedir; EvInfo "hal" "deinit sd card" []; EvSdDeinit "/sd" ])%list ->
  e = EvInfo "hal" "init sd card" [] \/ e = EvSdInit "/sd" 25 ESP_OK
  \/ e = EvOpendir p (Some dir) \/ (exists r, e = EvReaddir r)
  \/ e = EvClosedir \/ e = EvInfo "hal" "deinit sd card" []
  \/ e = EvSdDeinit "/sd".
Proof.
  intros H. apply in_app_or in H. destruct H as [H | H].
  - simpl in H. intuition auto.
  - apply in_app_or in H. destruct H as [H | H].
    + apply in_app_or in H. destruct H as [H | H].
      * apply in_readdir_events in H. auto.
      * simpl in H. destruct H as [H | []]. right; right; right; left. eauto.
    + simpl in H. intuition auto.
Qed.

(** C1: whenever mounting the card fails ([bsp_sdcard_init] reports a status
    other than [ESP_OK]) or the directory cannot be opened ([opendir] gives
    the null pointer), [scanSdCard] logs an error and returns the empty
    list. *)
Theorem scanSdCard_failure_returns_empty dirPath (m : Machine W) :
  let o := scanSdCard dirPath m in
  (exists mount_point cs r, In (EvSdInit mount_point cs r) (trace o) /\ r <> ESP_OK)
  \/ (exists path, In (EvOpendir path None) (trace o)) ->
  value o = [] /\ exists fmt args, In (EvError fmt args) (trace o).
Proof.
  intros o H. subst o.
  destruct (scanSdCard_outcome dirPath m) as [r Hr Hv _ Ht | Hv _ Ht | dir Hv _ Ht].
  - split; [exact Hv |]. rewrite Ht. simpl. eauto 6.
  - split; [exact Hv |]. rewrite Ht. simpl. eauto 8.
  - exfalso. rewrite Ht in H.
    destruct H as [(mp & cs & r & Hin & Hr) | (path & Hin)];
      apply in_scanned_trace in Hin;
      destruct Hin as [E | [E | [E | [[x E] | [E | [E | E]]]]]];
      try discriminate E.
    injection E as _ _ Er. contradiction.
Qed.

(** C2: when the mount and [opendir] both succeed, [scanSdCard] reads the
    stream to its end and returns one [FileEntry_t] per entry that
    [readdir] yielded, "." and ".." left out, in the order [readdir]
    yielded them; the entry's name is [d_name] and its [isDir] flag is set
    exactly when [d_type] is [DT_DIR]. *)
Theorem scanSdCard_lists_directory dirPath (m : Machine W) :
  let o := scanSdCard dirPath m in
  (exists mount_point cs, In (EvSdInit mount_point cs ESP_OK) (trace o)) ->
  forall path dir, In (EvOpendir path (Some dir)) (trace o) ->
  readdir_yields (trace o) = dir
  /\ Forall2 (fun fe e => name fe = d_name e
                         /\ (isDir fe = true <-> d_type e = DT_DIR))
       (value o)
       (filter (fun e => negb (String.eqb (d_name e) "." || String.eqb (d_name e) ".."))
               (readdir_yields (trace o))).
Proof.
  intros o _ path dir Hopen. subst o.
  destruct (scanSdCard_outcome dirPath m) as [r Hr Hv _ Ht | Hv _ Ht | dir' Hv _ Ht].
  - exfalso. rewrite Ht in Hopen. simpl in Hopen.
    destruct Hopen as [E | [E | [E | []]]]; discriminate E.
  - exfalso. rewrite Ht in Hopen. simpl in Hopen.
    destruct Hopen as [E | [E | [E | [E | [E | []]]]]]; discriminate E.
  - assert (Hy : readdir_yields (trace (scanSdCard dirPath m)) = dir').
    { rewrite Ht. simpl. rewrite <- app_assoc, readdir_yields_stream. simpl.
      apply app_nil_r. }
    assert (Hd : dir' = dir).
    { rewrite Ht in Hopen. apply in_scanned_trace in Hopen.
      destruct Hopen as [E | [E | [E | [[x E] | [E | [E | E]]]]]];
        try discriminate E.
      injection E as _ E. symmetry. exact E. }
    rewrite Hd in Hy, Hv. split; [exact Hy |].
    rewrite Hy, Hv. clear. induction dir as [|e dir IH]; simpl.
    + constructor.
    + unfold is_dot at 1.
      destruct (String.eqb (d_name e) "." || String.eqb (d_name e) ".."); simpl.
      * exact IH.
      * constructor; [| exact IH]. split; [reflexivity |]. simpl. apply Z.eqb_eq.
Qed.

(** C5: [scanSdCard] returns with nothing held: every directory handle it
    opened has been closed and every mount of the card it made has been
    undone, each release coming after its acquisition, on all paths. *)
Theorem scanSdCard_releases_resources dirPath (m : Machine W) :
  held_after (trace (scanSdCard dirPath m)) = Some {| dirs_open := 0; mounts := 0 |}.
Proof.
  destruct (scanSdCard_outcome dirPath m) as [r Hr _ _ Ht | _ _ Ht | dir _ _ Ht];
    rewrite Ht; unfold held_after.
  - simpl. destruct (Z.eqb_spec r ESP_OK); [contradiction | reflexivity].
  - reflexivity.
  - simpl. rewrite <- app_assoc, account_readdir. reflexivity.
Qed.

(** ** The I2C scan *)

Lemma probes_app (a b : list Event) :
  probes (a ++ b) = (probes a ++ probes b)%list.
Proof.
  induction a as [|e a IH]; simpl; [reflexivity |].
  destruct e; simpl; rewrite IH; reflexivity.
Qed.

(** One step of the inner loop: at most one probe, at the address
    [i + j], and the address is appended exactly when the probe answered
    [ESP_OK]. *)
Lemma probe_one_spec h i j addrs (m : Machine W) :
  let o := probe_one h i j addrs m in
  map fst (probes (trace o))
  = filter (fun a => negb (a >=? 120)) [to_uint8 (i + j)]
  /\ value o = (addrs ++ map fst (filter responded (probes (trace o))))%list.
Proof.
  unfold probe_one, sdk. cbn.
  destruct (to_uint8 (i + j) >=? 120) eqn:Hskip; cbn.
  - split; [reflexivity | symmetry; apply app_nil_r].
  - unfold responded. cbn.
    destruct (_ =? ESP_OK); cbn; split; try reflexivity.
    symmetry; apply app_nil_r.
Qed.

(** The inner loop over a list of [j]. *)
Lemma inner_loop_spec h i (js : list Z) : forall addrs (m : Machine W),
  let o := for_each js addrs (fun j addrs => probe_one h i j addrs) m in
  map fst (probes (trace o))
  = filter (fun a => negb (a >=? 120)) (map (fun j => to_uint8 (i + j)) js)
  /\ value o = (addrs ++ map fst (filter responded (probes (trace o))))%list.
Proof.
  induction js as [|j js IH]; intros addrs m o; subst o.
  - split; [reflexivity | symmetry; apply app_nil_r].
  - cbn [for_each]. rewrite trace_bind, value_bind, probes_app.
    destruct (probe_one_spec h i j addrs m) as [Hp Hv].
    destruct (IH (value (probe_one h i j addrs m)) (final (probe_one h i j addrs m)))
      as [Hp' Hv'].
    split.
    + rewrite map_app, Hp, Hp'. cbn [map filter].
      destruct (negb (to_uint8 (i + j) >=? 120)); reflexivity.
    + rewrite Hv', Hv, filter_app, map_app, app_assoc. reflexivity.
Qed.

(** The outer loop over a list of [i]. *)
Lemma outer_loop_spec h (js ivals : list Z) : forall addrs (m : Machine W),
  let o := for_each ivals addrs
             (fun i addrs => for_each js addrs (fun j addrs => probe_one h i j addrs)) m in
  map fst (probes (trace o))
  = filter (fun a => negb (a >=? 120))
      (flat_map (fun i => map (fun j => to_uint8 (i + j)) js) ivals)
  /\ value o = (addrs ++ map fst (filter responded (probes (trace o))))%list.
Proof.
  induction ivals as [|i ivals IH]; intros addrs m o; subst o.
  - split; [reflexivity | symmetry; apply app_nil_r].
  - cbn [for_each flat_map]. rewrite trace_bind, value_bind, probes_app.
    destruct (inner_loop_spec h i js addrs m) as [Hp Hv].
    set (o1 := for_each js addrs _ m) in *.
    destruct (IH (value o1) (final o1)) as [Hp' Hv'].
    split.
    + rewrite map_app, Hp, Hp', filter_app. reflexivity.
    + rewrite Hv', Hv, filter_app, map_app, app_assoc. reflexivity.
Qed.

Lemma addresses_from_sorted (lo : Z) (n s : nat) :
  StronglySorted Z.lt (map (fun k => lo + Z.of_nat k) (seq s n)).
Proof.
  revert s. induction n as [|n IH]; intros s; simpl; constructor.
  - apply IH.
  - apply Forall_forall. intros x Hx. apply in_map_iff in Hx.
    destruct Hx as [k [<- Hk]]. apply in_seq in Hk. lia.
Qed.

Lemma responders_sorted (ps : list (Z * esp_err_t)) :
  StronglySorted Z.lt (map fst ps) ->
  StronglySorted Z.lt (map fst (filter responded ps)).
Proof.
  induction ps as [|p ps IH]; simpl; intros H; [constructor |].
  apply StronglySorted_inv in H. destruct H as [Hs Hall].
  destruct (responded p); simpl; [| auto].
  constructor; [auto |].
  rewrite Forall_forall in *. intros x Hx. apply Hall.
  apply in_map_iff in Hx. destruct Hx as [q [<- Hq]].
  apply filter_In in Hq. apply in_map. tauto.
Qed.

Lemma no_responders (ps : list (Z * esp_err_t)) :
  (forall p, In p ps -> snd p <> ESP_OK) -> filter responded ps = [].
Proof.
  induction ps as [|q ps IH]; intros Hnone; [reflexivity |]. simpl.
  unfold responded at 1.
  destruct (Z.eqb_spec (snd q) ESP_OK) as [E | _].
  - exfalso. apply (Hnone q); [left; reflexivity | exact E].
  - apply IH. intros p' Hp'. apply Hnone. right. exact Hp'.
Qed.

Lemma in_addresses (lo hi a : Z) :
  In a (addresses lo hi) <-> lo <= a <= hi.
Proof.
  unfold addresses. rewrite in_map_iff. split.
  - intros [k [<- Hk]]. apply in_seq in Hk. lia.
  - intros H. exists (Z.to_nat (a - lo)). split; [lia |]. apply in_seq. lia.
Qed.

Lemma scan_addresses :
  filter (fun a => negb (a >=? 120))
    (flat_map (fun i => map (fun j => to_uint8 (i + j)) (for_range 0 16 1))
       (for_range 16 128 16))
  = addresses 16 119.
Proof. vm_compute. reflexivity. Qed.

Lemma i2cScan_spec isInternal (m : Machine W) :
  map fst (probes (trace (i2cScan isInternal m))) = addresses 16 119
  /\ value (i2cScan isInternal m)
     = map fst (filter responded (probes (trace (i2cScan isInternal m)))).
Proof.
  unfold i2cScan. rewrite trace_bind, value_bind, probes_app.
  set (c := if isInternal then _ else _).
  assert (Hc : probes (trace (c m)) = []) by (subst c; destruct isInternal; reflexivity).
  rewrite Hc. cbn [app].
  destruct (outer_loop_spec (value (c m)) (for_range 0 16 1) (for_range 16 128 16)
              [] (final (c m))) as [Hp Hv].
  split; [rewrite Hp; apply scan_addresses | exact Hv].
Qed.

(** C3: on either bus, [i2cScan] probes the addresses 0x10 to 0x77, each
    once, in ascending order, and nothing else; it returns the probed
    addresses that answered [ESP_OK], in that order, so the empty list when
    none answered. *)
Theorem i2cScan_returns_responders isInternal (m : Machine W) :
  let o := i2cScan isInternal m in
  map fst (probes (trace o)) = addresses 16 119
  /\ value o = map fst (filter (fun p => (snd p =? ESP_OK)%Z) (probes (trace o)))
  /\ (forall a, (a < 16 \/ 120 <= a) ->
                ~ In a (map fst (probes (trace o))) /\ ~ In a (value o))
  /\ StronglySorted Z.lt (value o)
  /\ ((forall p, In p (probes (trace o)) -> snd p <> ESP_OK) -> value o = []).
Proof.
  intros o. destruct (i2cScan_spec isInternal m) as [Hp Hv].
  fold o in Hp, Hv.
  assert (Hsub : forall a, In a (value o) -> In a (map fst (probes (trace o)))).
  { intros a Ha. rewrite Hv in Ha. apply in_map_iff in Ha.
    destruct Ha as [q [<- Hq]]. apply filter_In in Hq. apply in_map. tauto. }
  assert (Hout : forall a, a < 16 \/ 120 <= a -> ~ In a (map fst (probes (trace o)))).
  { intros a Ha Hin. rewrite Hp in Hin. apply in_addresses in Hin. lia. }
  repeat split.
  - exact Hp.
  - exact Hv.
  - apply Hout; assumption.
  - intros Hin. apply (Hout a); [assumption | apply Hsub; exact Hin].
  - rewrite Hv. apply responders_sorted. rewrite Hp. apply addresses_from_sorted.
  - intros Hnone. rewrite Hv.
    rewrite (no_responders _ Hnone). reflexivity.
Qed.

(** ** GPIO drive strength *)







Lemma ascending_distinct (l : list Z) : StronglySorted Z.lt l -> NoDup l.
Proof.
  induction 1 as [|a l Hs IH Hall]; constructor; [| exact IH].
  intros Hin. rewrite Forall_forall in Hall. specialize (Hall a Hin). lia.
Qed.






(** ** Touch input *)

(** C9: the LVGL read callback reports "released" and leaves the point as
    it was when the touch handle is null or the controller reports no
    touch; otherwise it reports "pressed" at the first coordinate pair the
    controller gave.  With a handle the controller is asked exactly once. *)
Theorem lvgl_read_cb_reports (data : lv_indev_data_t) (m : Machine W) :
  let o := lvgl_read_cb data m in
  (_lcd_touch_handle (world m) = None ->
     value o = {| point := point data; state := LV_INDEV_STATE_REL |}
     /\ trace o = [])
  /\ (forall h, _lcd_touch_handle (world m) = Some h ->
        exists s, trace o = [EvTouchRead h; EvTouchGet h 1 s])
  /\ (forall h n s, In (EvTouchGet h n s) (trace o) ->
        touchpad_pressed s = false ->
        value o = {| point := point data; state := LV_INDEV_STATE_REL |})
  /\ (forall h n s, In (EvTouchGet h n s) (trace o) ->
        touchpad_pressed s = true ->
        value o = {| point := {| px := touch_x0 s; py := touch_y0 s |};
                     state := LV_INDEV_STATE_PR |}).
Proof.
  intros o. subst o. unfold lvgl_read_cb.
  destruct (_lcd_touch_handle (world m)) as [h |].
  - cbn.
    set (s := fst (esp_lcd_touch_get_coordinates h 1 (esp_lcd_touch_read_data h (world m)))).
    assert (Hin : forall h' n s',
              In (EvTouchGet h' n s')
                 (EvTouchRead h :: EvTouchGet h 1 s
                  :: trace ((if negb (touchpad_pressed s)
                             then ret {| point := point data; state := LV_INDEV_STATE_REL |}
                             else ret {| point := {| px := touch_x0 s; py := touch_y0 s |};
                                         state := LV_INDEV_STATE_PR |})
                            {| self := self m; _temp_sensor := _temp_sensor m;
                               world := snd (esp_lcd_touch_get_coordinates h 1
                                               (esp_lcd_touch_read_data h (world m))) |}))
              -> s' = s).
    { intros h' n s' [E | [E | Hin]]; [discriminate E | now injection E |].
      destruct (touchpad_pressed s); destruct Hin. }
    split; [| split; [| split]].
    + discriminate.
    + intros h' E. injection E as <-. exists s.
      destruct (touchpad_pressed s); reflexivity.
    + intros h' n s' Hs' Hrel. apply Hin in Hs'. subst s'. rewrite Hrel. reflexivity.
    + intros h' n s' Hs' Hprs. apply Hin in Hs'. subst s'. rewrite Hprs. reflexivity.
  - cbn. split; [| split; [| split]].
    + intros _. split; reflexivity.
    + discriminate.
    + intros h n s [].
    + intros h n s [].
Qed.

(** ** Display brightness *)

Lemma clamp_range (v lo hi : Z) : lo <= hi -> lo <= clamp v lo hi <= hi.
Proof.
  intros H. unfold clamp.
  destruct (Z.ltb_spec v lo); [lia |]. destruct (Z.ltb_spec hi v); lia.
Qed.

Lemma setDisplayBrightness_stores (brightness : Z) (m : Machine W) :
  _current_lcd_brightness (self (final (setDisplayBrightness brightness m)))
  = clamp brightness 0 100.
Proof.
  cbn. unfold to_uint8. apply Z.mod_small.
  pose proof (clamp_range brightness 0 100). lia.
Qed.

(** ** What each operation leaves alone *)

Section Frame.

Context {X : Type} (f : HalEsp32 -> X).

Lemma keeps_ret {A} (a : A) : keeps f (@ret W A a).
Proof. intros m. reflexivity. Qed.

Lemma keeps_bind {A B} (c : M W A) (k : A -> M W B) :
  keeps f c -> (forall a, keeps f (k a)) -> keeps f (bind c k).
Proof.
  intros Hc Hk m. rewrite final_bind, Hk, Hc. reflexivity.
Qed.

Lemma keeps_emit e : keeps f (@emit W e).
Proof. intros m. reflexivity. Qed.

Lemma keeps_call {A} (g : W -> A * W) ev : keeps f (call g ev).
Proof. intros m. reflexivity. Qed.

Lemma keeps_get_self : keeps f (@get_self W).
Proof. intros m. reflexivity. Qed.

Lemma keeps_get_temp_sensor : keeps f (@get_temp_sensor W).
Proof. intros m. reflexivity. Qed.

Lemma keeps_set_temp_sensor h : keeps f (@set_temp_sensor W h).
Proof. intros m. reflexivity. Qed.

Lemma keeps_modify_self (g : HalEsp32 -> HalEsp32) :
  (forall s, f (g s) = f s) -> keeps f (@modify_self W g).
Proof. intros Hg m. apply Hg. Qed.

Lemma keeps_for_each {I A} (body : I -> A -> M W A) (l : list I) :
  (forall i acc, keeps f (body i acc)) -> forall acc, keeps f (for_each l acc body).
Proof.
  intros Hbody. induction l as [|i l IH]; intros acc.
  - apply keeps_ret.
  - cbn [for_each]. apply keeps_bind; [apply Hbody | exact IH].
Qed.

Lemma keeps_scan_loop dir acc : keeps f (@scan_loop W dir acc).
Proof. intros m. rewrite scan_loop_final. reflexivity. Qed.

(** Walks down a computation built from the primitives above. *)
Ltac keep :=
  repeat (intros;
    lazymatch goal with
    | |- keeps _ (bind _ _) => apply keeps_bind
    | |- keeps _ (ret _) => apply keeps_ret
    | |- keeps _ (for_each _ _ _) => apply keeps_for_each
    | |- keeps _ (scan_loop _ _) => apply keeps_scan_loop
    | |- keeps _ (if ?b then _ else _) => destruct b
    | |- keeps _ (match ?x with _ => _ end) => destruct x
    | |- keeps _ (modify_self _) => apply keeps_modify_self; solve [auto]
    | |- keeps _ _ =>
        first [ apply keeps_emit | apply keeps_call | apply keeps_get_self
              | apply keeps_get_temp_sensor | apply keeps_set_temp_sensor ]
    end).

(** The members defined elsewhere are assumed to leave [f] alone, and so
    do the two assignments of [init]. *)
Hypothesis component_keeps :
  forall fn args s (w : W), f (fst (component fn args s w)) = f s.
Hypothesis lvDisp_apart : forall v s, f (with_lvDisp v s) = f s.
Hypothesis lvTouchpad_apart : forall v s, f (with_lvTouchpad v s) = f s.

Lemma keeps_member fn args : keeps f (member fn args).
Proof. intros m. apply component_keeps. Qed.

Lemma keeps_delay ms : keeps f (delay ms).
Proof. unfold delay, sdk. keep. Qed.

Lemma keeps_clearRtcIrq : keeps f clearRtcIrq.
Proof. unfold clearRtcIrq, sdk, tagInfo. keep. Qed.

Lemma keeps_update_system_time : keeps f update_system_time.
Proof. unfold update_system_time, sdk, tagInfo. keep. Qed.

Lemma keeps_set_gpio_output_capability : keeps f set_gpio_output_capability.
Proof.
  unfold set_gpio_output_capability. apply keeps_for_each.
  intros i acc. unfold set_one_gpio, printf. keep.
Qed.

Lemma keeps_init : keeps f init.
Proof.
  unfold init.
  repeat (intros;
    lazymatch goal with
    | |- keeps _ (bind _ _) => apply keeps_bind
    | |- keeps _ (ret _) => apply keeps_ret
    | |- keeps _ (member _ _) => apply keeps_member
    | |- keeps _ (delay _) => apply keeps_delay
    | |- keeps _ clearRtcIrq => apply keeps_clearRtcIrq
    | |- keeps _ update_system_time => apply keeps_update_system_time
    | |- keeps _ set_gpio_output_capability => apply keeps_set_gpio_output_capability
    | |- keeps _ (modify_self (with_lvDisp _)) =>
        apply keeps_modify_self; apply lvDisp_apart
    | |- keeps _ (modify_self (with_lvTouchpad _)) =>
        apply keeps_modify_self; apply lvTouchpad_apart
    | |- keeps _ (tagInfo _ _ _) => apply keeps_emit
    | |- keeps _ (sdk _ _) => apply keeps_call
    | |- keeps _ get_self => apply keeps_get_self
    end).
Qed.

Lemma keeps_i2cScan isInternal : keeps f (i2cScan isInternal).
Proof. unfold i2cScan, probe_one, sdk. keep. Qed.

Lemma keeps_scanSdCard dirPath :
  (forall b s, f (with_sd_card_mounted b s) = f s) -> keeps f (scanSdCard dirPath).
Proof. intros Hsd. unfold scanSdCard, tagInfo, error, call_void. keep. Qed.

Lemma keeps_setDisplayBrightness brightness :
  (forall v s, f (with_current_lcd_brightness v s) = f s) ->
  keeps f (setDisplayBrightness brightness).
Proof. intros Hb. unfold setDisplayBrightness, tagInfo, sdk. keep. Qed.

(** Every operation other than the two writers. *)
Lemma keeps_run_op (op : Op) :
  match op with
  | Op_scanSdCard _ => forall b s, f (with_sd_card_mounted b s) = f s
  | Op_setDisplayBrightness _ => forall v s, f (with_current_lcd_brightness v s) = f s
  | _ => True
  end ->
  keeps f (run_op op).
Proof.
  destruct op; intros Hop; cbn [run_op]; unfold discard.
  - apply keeps_init.
  - apply keeps_delay.
  - unfold millis, sdk. keep.
  - unfold getCpuTemp, sdk. keep.
  - apply keeps_setDisplayBrightness, Hop.
  - unfold getDisplayBrightness. keep.
  - unfold lvglLock, sdk. keep.
  - unfold lvglUnlock, sdk. keep.
  - apply keeps_clearRtcIrq.
  - unfold setRtcTime, tagInfo, sdk.
    apply keeps_bind; [keep |]. intros _.
    apply keeps_bind; [keep |]. intros _.
    apply keeps_bind; [apply keeps_delay |]. intros _.
    apply keeps_update_system_time.
  - unfold isSdCardMounted. keep.
  - apply keeps_bind; [apply keeps_scanSdCard, Hop | keep].
  - unfold usbCDetect, sdk. keep.
  - unfold headPhoneDetect, sdk. keep.
  - apply keeps_bind; [apply keeps_i2cScan | keep].
  - unfold initPortAI2c, tagInfo, sdk. keep.
  - unfold deinitPortAI2c, tagInfo, sdk. keep.
  - unfold gpioInitOutput, sdk. keep.
  - unfold gpioSetLevel, sdk. keep.
  - unfold gpioReset, sdk. keep.
  - apply keeps_member.
Qed.

End Frame.

(** ** The mount flag *)

(** C4 (the code departs from it): [isSdCardMounted] does not read
    [_sd_card_mounted]; it answers [true] in every state, and so on a
    freshly constructed object, whose flag is [false]. *)
Theorem isSdCardMounted_ignores_flag (w : W) :
  _sd_card_mounted (self (boot w)) = false
  /\ value (isSdCardMounted (boot w)) = true
  /\ forall m : Machine W, value (isSdCardMounted m) = true.
Proof. repeat split. Qed.

Lemma scanSdCard_clears_flag dirPath (m : Machine W) :
  _sd_card_mounted (self (final (scanSdCard dirPath m))) = false
  \/ (self (final (scanSdCard dirPath m)) = self m
      /\ exists r, r <> ESP_OK
                   /\ trace (scanSdCard dirPath m)
                      = [ EvInfo "hal" "init sd card" []; EvSdInit "/sd" 25 r;
                          EvError "failed to mount sd card" [] ]).
Proof.
  destruct (scanSdCard_outcome dirPath m) as [r Hr _ Hs Ht | _ Hs _ | dir _ Hs _].
  - right. split; [exact Hs | exists r; split; assumption].
  - left. rewrite Hs. reflexivity.
  - left. rewrite Hs. reflexivity.
Qed.

(** C6: [_sd_card_mounted] is [false] whenever control is with the client:
    it starts [false], no operation other than [scanSdCard] changes it, a
    [scanSdCard] that mounted the card has reset it by the time it returns,
    and so it is [false] after any sequence of operations on a new object.
    The members defined in other files are taken not to write the flag. *)
Theorem sd_card_mounted_false_between_operations
    (component_keeps_flag :
       forall fn args s (w : W),
         _sd_card_mounted (fst (component fn args s w)) = _sd_card_mounted s) :
  _sd_card_mounted HalEsp32_new = false
  /\ (forall op (m : Machine W),
        (forall dirPath, op <> Op_scanSdCard dirPath) ->
        _sd_card_mounted (self (final (run_op op m))) = _sd_card_mounted (self m))
  /\ (forall dirPath (m : Machine W),
        (exists mount_point cs,
            In (EvSdInit mount_point cs ESP_OK) (trace (scanSdCard dirPath m))) ->
        _sd_card_mounted (self (final (scanSdCard dirPath m))) = false)
  /\ (forall ops (w : W),
        _sd_card_mounted (self (final (run_ops ops (boot w)))) = false).
Proof.
  assert (Hkeep : forall op, (forall dirPath, op <> Op_scanSdCard dirPath) ->
                             keeps _sd_card_mounted (run_op op)).
  { intros op Hop.
    apply keeps_run_op; try assumption; try reflexivity.
    destruct op; try exact I; try reflexivity.
    exfalso. apply (Hop dirPath). reflexivity. }
  split; [reflexivity |]. split; [| split].
  - intros op m Hop. apply Hkeep. exact Hop.
  - intros dirPath m (mp & cs & Hin).
    destruct (scanSdCard_clears_flag dirPath m) as [Hf | [_ (r & Hr & Ht)]];
      [exact Hf |].
    exfalso. rewrite Ht in Hin. simpl in Hin.
    destruct Hin as [E | [E | [E | []]]]; try discriminate E.
    injection E as _ _ Er. congruence.
  - intros ops w.
    assert (Hinv : forall m : Machine W, _sd_card_mounted (self m) = false ->
                   _sd_card_mounted (self (final (run_ops ops m))) = false).
    { induction ops as [|op ops IH]; intros m Hm; [exact Hm |].
      cbn [run_ops]. rewrite final_bind. apply IH.
      destruct op;
        try (rewrite Hkeep; [exact Hm | intros ? E; discriminate E]).
      cbn [run_op]. unfold discard. rewrite final_bind. cbn [ret final].
      destruct (scanSdCard_clears_flag dirPath m) as [Hf | [Hs _]];
        [exact Hf | rewrite Hs; exact Hm]. }
    apply Hinv. reflexivity.
Qed.

(** C10: after [setDisplayBrightness b] with [b] a [uint8_t],
    [getDisplayBrightness] returns [min b 100]; the stored value starts at
    100, only [setDisplayBrightness] changes it, and it lies between 0 and
    100 after any sequence of operations on a new object.  The members
    defined in other files are taken not to write it. *)
Theorem display_brightness_clamped
    (component_keeps_brightness :
       forall fn args s (w : W),
         _current_lcd_brightness (fst (component fn args s w))
         = _current_lcd_brightness s) :
  (forall b (m : Machine W), 0 <= b < 256 ->
     value (getDisplayBrightness (final (setDisplayBrightness b m))) = Z.min b 100)
  /\ _current_lcd_brightness HalEsp32_new = 100
  /\ (forall op (m : Machine W),
        (forall b, op <> Op_setDisplayBrightness b) ->
        _current_lcd_brightness (self (final (run_op op m)))
        = _current_lcd_brightness (self m))
  /\ (forall ops (w : W),
        0 <= _current_lcd_brightness (self (final (run_ops ops (boot w)))) <= 100).
Proof.
  assert (Hkeep : forall op, (forall b, op <> Op_setDisplayBrightness b) ->
                             keeps _current_lcd_brightness (run_op op)).
  { intros op Hop.
    apply keeps_run_op; try assumption; try reflexivity.
    destruct op; try exact I; try reflexivity.
    exfalso. apply (Hop brightness). reflexivity. }
  split; [| split; [reflexivity | split]].
  - intros b m Hb.
    change (value (getDisplayBrightness (final (setDisplayBrightness b m))))
      with (_current_lcd_brightness (self (final (setDisplayBrightness b m)))).
    rewrite setDisplayBrightness_stores. unfold clamp.
    destruct (Z.ltb_spec b 0); [lia |]. destruct (Z.ltb_spec 100 b); lia.
  - intros op m Hop. apply Hkeep. exact Hop.
  - intros ops w.
    assert (Hinv : forall m : Machine W,
              0 <= _current_lcd_brightness (self m) <= 100 ->
              0 <= _current_lcd_brightness (self (final (run_ops ops m))) <= 100).
    { induction ops as [|op ops IH]; intros m Hm; [exact Hm |].
      cbn [run_ops]. rewrite final_bind. apply IH.
      destruct op;
        try (rewrite Hkeep; [exact Hm | intros ? E; discriminate E]).
      cbn [run_op]. rewrite setDisplayBrightness_stores.
      apply clamp_range. lia. }
    apply Hinv. simpl. lia.
Qed.

End Facts.

(** ** The Kconfig defaults *)

(** C8: the GC2145 fragment sets build-time symbols only.  GC2145 support
    is off unless the user turns it on; once it is on, auto-detection is on
    by default, with the MIPI sensor detected and the DVP sensor not; the
    default MIPI format is RGB565 800x600 30fps with format index 1, and
    the default DVP format is YUV422 640x480 15fps with format index 2. *)
Theorem gc2145_defaults :
  (forall s, Kconfig.sel_CAMERA_GC2145 s = None -> Kconfig.CAMERA_GC2145 s = false)
  /\ (forall s, Kconfig.CAMERA_GC2145 s = true ->
        (Kconfig.sel_AUTO_DETECT s = None ->
           Kconfig.CAMERA_GC2145_AUTO_DETECT s = true)
        /\ (Kconfig.CAMERA_GC2145_AUTO_DETECT s = true ->
              Kconfig.sel_AUTO_DETECT_MIPI_INTERFACE_SENSOR s = None ->
              Kconfig.CAMERA_GC2145_AUTO_DETECT_MIPI_INTERFACE_SENSOR s = true)
        /\ (Kconfig.CAMERA_GC2145_AUTO_DETECT s = true ->
              Kconfig.sel_AUTO_DETECT_DVP_INTERFACE_SENSOR s = None ->
              Kconfig.CAMERA_GC2145_AUTO_DETECT_DVP_INTERFACE_SENSOR s = false)
        /\ (Kconfig.sel_MIPI_DEFAULT_FMT s = None ->
              Kconfig.CAMERA_GC2145_MIPI_DEFAULT_FMT s
              = Some Kconfig.MIPI_RGB565_800x600_30FPS
              /\ Kconfig.CAMERA_GC2145_MIPI_IF_FORMAT_INDEX_DAFAULT s = Some 1)
        /\ (Kconfig.sel_DVP_DEFAULT_FMT s = None ->
              Kconfig.CAMERA_GC2145_DVP_DEFAULT_FMT s
              = Some Kconfig.DVP_YUV422_640x480_15FPS
              /\ Kconfig.CAMERA_GC2145_DVP_IF_FORMAT_INDEX_DAFAULT s = Some 2)).
Proof.
  split.
  - intros s Hs. unfold Kconfig.CAMERA_GC2145. rewrite Hs. reflexivity.
  - intros s Hon. split; [| split; [| split; [| split]]].
    + intros Hsel. unfold Kconfig.CAMERA_GC2145_AUTO_DETECT.
      rewrite Hon, Hsel. reflexivity.
    + intros Hauto Hsel.
      unfold Kconfig.CAMERA_GC2145_AUTO_DETECT_MIPI_INTERFACE_SENSOR.
      rewrite Hauto, Hsel. reflexivity.
    + intros Hauto Hsel.
      unfold Kconfig.CAMERA_GC2145_AUTO_DETECT_DVP_INTERFACE_SENSOR.
      rewrite Hauto, Hsel. reflexivity.
    + intros Hsel.
      unfold Kconfig.CAMERA_GC2145_MIPI_IF_FORMAT_INDEX_DAFAULT, Kconfig.mipi_member,
        Kconfig.CAMERA_GC2145_MIPI_DEFAULT_FMT.
      rewrite Hon, Hsel. split; reflexivity.
    + intros Hsel.
      unfold Kconfig.CAMERA_GC2145_DVP_IF_FORMAT_INDEX_DAFAULT, Kconfig.dvp_member,
        Kconfig.CAMERA_GC2145_DVP_DEFAULT_FMT.
      rewrite Hon, Hsel. split; reflexivity.
Qed.

(** * Further properties of the code *)

Section Further.

Context {W : Type} {board : Board W}.

(** ** More on the scan of the card *)

Lemma no_error_in_readdir (l : list (option dirent)) :
  existsb is_error_event (map EvReaddir l) = false.
Proof. induction l as [|x l IH]; simpl; [reflexivity | exact IH]. Qed.


Lemma only_dots_filtered (dir : DIR) :
  (forall e, In e dir -> is_dot e = true) ->
  filter (fun e => negb (is_dot e)) dir = [].
Proof.
  induction dir as [|e dir IH]; intros Hall; simpl; [reflexivity |].
  rewrite (Hall e) by (left; reflexivity). simpl.
  apply IH. intros e' He'. apply Hall. right. exact He'.
Qed.

Lemma kept_entries_not_dot (dir : DIR) :
  Forall (fun fe => name fe <> "." /\ name fe <> "..")
         (map file_entry_of (filter (fun e => negb (is_dot e)) dir)).
Proof.
  induction dir as [|e dir IH]; simpl; [constructor |].
  destruct (is_dot e) eqn:Hdot; simpl; [exact IH |].
  constructor; [| exact IH]. simpl. unfold is_dot in Hdot.
  apply orb_false_elim in Hdot. destruct Hdot as [H1 H2].
  apply String.eqb_neq in H1. apply String.eqb_neq in H2. split; assumption.
Qed.

Lemma kept_entries_count (dir : DIR) :
  (List.length (map file_entry_of (filter (fun e => negb (is_dot e)) dir))
   <= List.length dir)%nat.
Proof.
  rewrite length_map. induction dir as [|e dir IH]; simpl; [lia |].
  destruct (negb (is_dot e)); simpl; lia.
Qed.

(** An error line is logged exactly when the mount or [opendir] failed.  A
    directory that holds nothing but "." and ".." gives the empty list
    without an error line, so an empty result alone does not tell a
    failure from an empty directory. *)
Theorem scanSdCard_error_only_on_failure dirPath (m : Machine W) :
  let o := scanSdCard dirPath m in
  (existsb is_error_event (trace o) = true <->
     (exists r, r <> ESP_OK /\ In (EvSdInit "/sd" 25 r) (trace o))
     \/ In (EvOpendir ("/sd/" ++ dirPath) None) (trace o))
  /\ (forall path dir, In (EvOpendir path (Some dir)) (trace o) ->
        (forall e, In e dir -> is_dot e = true) ->
        value o = [] /\ existsb is_error_event (trace o) = false).
Proof.
  intros o. subst o.
  destruct (scanSdCard_outcome dirPath m) as [r Hr Hv _ Ht | Hv _ Ht | dir Hv _ Ht];
    rewrite Ht.
  - split.
    + split; [| reflexivity]. intros _. left. exists r.
      split; [exact Hr | simpl; auto].
    + intros path dir [E | [E | [E | []]]]; discriminate E.
  - split.
    + split; [| reflexivity]. intros _. right. simpl. auto.
    + intros path dir [E | [E | [E | [E | [E | []]]]]]; discriminate E.
  - assert (Hquiet : existsb is_error_event
              ([ EvInfo "hal" "init sd card" []; EvSdInit "/sd" 25 ESP_OK;
                 EvOpendir ("/sd/" ++ dirPath) (Some dir) ]
               ++ (map EvReaddir (map Some dir) ++ [EvReaddir None])
               ++ [ EvClosedir; EvInfo "hal" "deinit sd card" [];
                    EvSdDeinit "/sd" ])%list = false).
    { rewrite !existsb_app, no_error_in_readdir. reflexivity. }
    split.
    + rewrite Hquiet. split; [discriminate |].
      intros [(r & Hr & Hin) | Hin]; apply in_scanned_trace in Hin;
        destruct Hin as [E | [E | [E | [[x E] | [E | [E | E]]]]]];
        try discriminate E.
      injection E as Er. contradiction.
    + intros path dir' Hin Hdots. split; [| exact Hquiet].
      apply in_scanned_trace in Hin.
      destruct Hin as [E | [E | [E | [[x E] | [E | [E | E]]]]]];
        try discriminate E.
      injection E as _ E. subst dir'.
      rewrite Hv, only_dots_filtered by exact Hdots. reflexivity.
Qed.

(** Whatever the card holds, no returned entry is named "." or "..", and
    the result is never longer than the number of entries read. *)
Theorem scanSdCard_skips_dot_entries dirPath (m : Machine W) :
  let o := scanSdCard dirPath m in
  Forall (fun fe => name fe <> "." /\ name fe <> "..") (value o)
  /\ (List.length (value o) <= List.length (readdir_yields (trace o)))%nat.
Proof.
  intros o. subst o.
  destruct (scanSdCard_outcome dirPath m) as [r Hr Hv _ Ht | Hv _ Ht | dir Hv _ Ht];
    rewrite Hv, Ht.
  - split; [constructor | simpl; lia].
  - split; [constructor | simpl; lia].
  - split; [apply kept_entries_not_dot |].
    simpl. rewrite <- app_assoc, readdir_yields_stream. simpl.
    rewrite app_nil_r. apply kept_entries_count.
Qed.

Lemma scanSdCard_temp_sensor dirPath (m : Machine W) :
  _temp_sensor (final (scanSdCard dirPath m)) = _temp_sensor m.
Proof.
  unfold scanSdCard, tagInfo, error, call_void.
  remember ("/sd/" ++ dirPath)%string as p eqn:Hp. cbn.
  destruct (negb (fst (bsp_sdcard_init "/sd" 25 (world m)) =? ESP_OK));
    cbn; [reflexivity |].
  destruct (fst (opendir p (snd (bsp_sdcard_init "/sd" 25 (world m)))));
    cbn; [| reflexivity].
  rewrite scan_loop_final. reflexivity.
Qed.

(** A scan assigns no data member other than [_sd_card_mounted], and not
    the static sensor handle; called with the flag [false] it returns with
    the object exactly as it was. *)
Theorem scanSdCard_changes_only_flag dirPath (m : Machine W) :
  let o := scanSdCard dirPath m in
  apart_from_sd_card_mounted (self (final o)) = apart_from_sd_card_mounted (self m)
  /\ _temp_sensor (final o) = _temp_sensor m
  /\ (_sd_card_mounted (self m) = false -> self (final o) = self m).
Proof.
  intros o. subst o. split; [| split].
  - destruct (scanSdCard_outcome dirPath m) as [r _ _ Hs _ | _ Hs _ | dir _ Hs _];
      rewrite Hs; reflexivity.
  - apply scanSdCard_temp_sensor.
  - intros Hflag.
    destruct (scanSdCard_outcome dirPath m) as [r _ _ Hs _ | _ Hs _ | dir _ Hs _];
      rewrite Hs; try reflexivity;
      destruct (self m); simpl in Hflag; subst; reflexivity.
Qed.


(** ** Which operation reaches which device *)

Lemma emits_only_ret {A} ok (a : A) : emits_only ok (@ret W A a).
Proof. intros m. reflexivity. Qed.

Lemma emits_only_bind {A B} ok (c : M W A) (k : A -> M W B) :
  emits_only ok c -> (forall a, emits_only ok (k a)) -> emits_only ok (bind c k).
Proof.
  intros Hc Hk m. rewrite trace_bind, forallb_app, Hc, Hk. reflexivity.
Qed.

Lemma emits_only_emit ok e : ok e = true -> emits_only ok (@emit W e).
Proof. intros He m. simpl. rewrite He. reflexivity. Qed.

Lemma emits_only_call {A} ok (g : W -> A * W) ev :
  (forall a, ok (ev a) = true) -> emits_only ok (call g ev).
Proof. intros He m. simpl. rewrite He. reflexivity. Qed.

Lemma emits_only_member ok fn args :
  ok (EvComponent fn args) = true -> emits_only ok (member fn args).
Proof. intros He m. simpl. rewrite He. reflexivity. Qed.

Lemma emits_only_get_self ok : emits_only ok (@get_self W).
Proof. intros m. reflexivity. Qed.

Lemma emits_only_modify_self ok g : emits_only ok (@modify_self W g).
Proof. intros m. reflexivity. Qed.

Lemma emits_only_get_temp_sensor ok : emits_only ok (@get_temp_sensor W).
Proof. intros m. reflexivity. Qed.

Lemma emits_only_set_temp_sensor ok h : emits_only ok (@set_temp_sensor W h).
Proof. intros m. reflexivity. Qed.

Lemma emits_only_for_each {I A} ok (body : I -> A -> M W A) (l : list I) :
  (forall i acc, emits_only ok (body i acc)) ->
  forall acc, emits_only ok (for_each l acc body).
Proof.
  intros Hbody. induction l as [|i l IH]; intros acc.
  - apply emits_only_ret.
  - cbn [for_each]. apply emits_only_bind; [apply Hbody | exact IH].
Qed.

Lemma emits_only_scan_loop ok dir acc :
  (forall r, ok (EvReaddir r) = true) -> emits_only ok (@scan_loop W dir acc).
Proof.
  intros Hr m. rewrite scan_loop_trace, forallb_app. simpl. rewrite Hr.
  rewrite andb_true_r. induction dir as [|e dir IH]; simpl; [reflexivity |].
  rewrite Hr. exact IH.
Qed.

(** Brings an operation down to the primitives of the monad. *)
Ltac to_primitives :=
  cbv beta iota zeta delta
    [ run_op discard init setRtcTime delay millis getCpuTemp setDisplayBrightness
      getDisplayBrightness lvglLock lvglUnlock clearRtcIrq update_system_time
      isSdCardMounted scanSdCard usbCDetect headPhoneDetect i2cScan probe_one
      initPortAI2c deinitPortAI2c gpioInitOutput gpioSetLevel gpioReset
      set_gpio_output_capability set_one_gpio tagInfo error printf sdk call_void ].

(** Checks the events of a computation made of primitives one by one. *)
Ltac footprint :=
  repeat (intros;
    lazymatch goal with
    | |- emits_only _ (bind _ _) => apply emits_only_bind
    | |- emits_only _ (ret _) => apply emits_only_ret
    | |- emits_only _ (for_each _ _ _) => apply emits_only_for_each
    | |- emits_only _ (scan_loop _ _) =>
        apply emits_only_scan_loop; intros; reflexivity
    | |- emits_only _ (if ?b then _ else _) => destruct b
    | |- emits_only _ (match ?x with _ => _ end) => destruct x
    | |- emits_only _ (emit _) => apply emits_only_emit; reflexivity
    | |- emits_only _ (call _ _) => apply emits_only_call; intros; reflexivity
    | |- emits_only _ (member _ _) => apply emits_only_member; reflexivity
    | |- emits_only _ (modify_self _) => apply emits_only_modify_self
    | |- emits_only _ get_self => apply emits_only_get_self
    | |- emits_only _ get_temp_sensor => apply emits_only_get_temp_sensor
    | |- emits_only _ (set_temp_sensor _) => apply emits_only_set_temp_sensor
    end).

Lemma run_op_no_sd (op : Op) :
  (forall dirPath, op <> Op_scanSdCard dirPath) ->
  emits_only (fun e => negb (is_sd_event e)) (run_op op).
Proof.
  intros Hop. destruct op; try (exfalso; apply (Hop dirPath); reflexivity);
    to_primitives; footprint.
Qed.

Lemma run_op_no_probe (op : Op) :
  (forall isInternal, op <> Op_i2cScan isInternal) ->
  emits_only (fun e => negb (is_probe_event e)) (run_op op).
Proof.
  intros Hop. destruct op; try (exfalso; apply (Hop isInternal); reflexivity);
    to_primitives; footprint.
Qed.

Lemma run_op_no_gpio (op : Op) :
  op <> Op_init -> emits_only (fun e => negb (is_gpio_event e)) (run_op op).
Proof.
  intros Hop. destruct op; try (exfalso; apply Hop; reflexivity);
    to_primitives; footprint.
Qed.

Lemma run_op_no_touch (op : Op) :
  emits_only (fun e => negb (is_touch_event e)) (run_op op).
Proof. destruct op; to_primitives; footprint. Qed.

(** Among the operations of [hal_esp32.cpp], only [scanSdCard] makes SD-card
    and directory calls, only [i2cScan] probes the bus, only [init] sets a
    GPIO drive capability, and none reads the touch controller (that is
    left to the LVGL callback).  This counts the calls the file makes
    itself, not those inside the members defined elsewhere. *)
Theorem operations_reach_their_own_device (op : Op) (m : Machine W)
    (Hhere : defined_here op = true) :
  ((forall dirPath, op <> Op_scanSdCard dirPath) ->
     existsb is_sd_event (trace (run_op op m)) = false)
  /\ ((forall isInternal, op <> Op_i2cScan isInternal) ->
        existsb is_probe_event (trace (run_op op m)) = false)
  /\ (op <> Op_init -> existsb is_gpio_event (trace (run_op op m)) = false)
  /\ existsb is_touch_event (trace (run_op op m)) = false.
Proof.
  assert (Hnone : forall bad (tr : list Event),
            forallb (fun e => negb (bad e)) tr = true -> existsb bad tr = false).
  { intros bad tr. induction tr as [|e tr IH]; simpl; [reflexivity |].
    destruct (bad e); simpl; [discriminate | exact IH]. }
  split; [| split; [| split]].
  - intros Hop. apply Hnone. apply run_op_no_sd. exact Hop.
  - intros Hop. apply Hnone. apply run_op_no_probe. exact Hop.
  - intros Hop. apply Hnone. apply run_op_no_gpio. exact Hop.
  - apply Hnone. apply run_op_no_touch.
Qed.

Lemma account_skips (tr : list Event) : forall h,
  forallb (fun e => negb (is_sd_event e)) tr = true ->
  fold_left account tr h = h.
Proof.
  induction tr as [|e tr IH]; intros h Hall; simpl; [reflexivity |].
  simpl in Hall. apply andb_prop in Hall. destruct Hall as [He Htr].
  rewrite IH by exact Htr.
  destruct h as [h |]; [| reflexivity].
  destruct e; try reflexivity; discriminate He.
Qed.

Lemma scanSdCard_balanced dirPath (m : Machine W) (h : Held) :
  fold_left account (trace (scanSdCard dirPath m)) (Some h) = Some h.
Proof.
  destruct (scanSdCard_outcome dirPath m) as [r Hr _ _ Ht | _ _ Ht | dir _ _ Ht];
    rewrite Ht; destruct h as [d k].
  - simpl. destruct (Z.eqb_spec r ESP_OK); [contradiction | reflexivity].
  - reflexivity.
  - simpl. rewrite <- app_assoc, account_readdir. reflexivity.
Qed.

(** Over any sequence of operations, starting anywhere, the file's own
    calls leave no directory open and no mount standing: what the client
    held before the sequence is what it holds after it. *)
Theorem session_releases_resources (ops : list Op) (m : Machine W) (h : Held) :
  fold_left account (trace (run_ops ops m)) (Some h) = Some h.
Proof.
  revert m. induction ops as [|op ops IH]; intros m; [reflexivity |].
  cbn [run_ops]. rewrite trace_bind, fold_left_app.
  assert (Hop : fold_left account (trace (run_op op m)) (Some h) = Some h).
  { destruct op;
      try (apply account_skips; apply run_op_no_sd; intros ? E; discriminate E).
    cbn [run_op]. unfold discard. rewrite trace_bind. cbn [ret trace].
    rewrite app_nil_r. apply scanSdCard_balanced. }
  rewrite Hop. apply IH.
Qed.

(** ** More on the I2C scan *)

Lemma probe_one_on_bus h i j addrs : emits_only (scan_event_on h) (probe_one h i j addrs).
Proof.
  unfold probe_one, sdk. apply emits_only_bind.
  - apply emits_only_call. intros a. reflexivity.
  - intros _. cbv zeta. destruct (to_uint8 (i + j) >=? 120).
    + apply emits_only_ret.
    + apply emits_only_bind.
      * apply emits_only_call. intros r. simpl. rewrite Z.eqb_refl. reflexivity.
      * intros r. destruct (r =? ESP_OK); apply emits_only_ret.
Qed.

(** The handle of the chosen bus is fetched once, by [bsp_i2c_get_handle]
    for the internal bus and by [bsp_ext_i2c_get_handle] for the external
    one; after that the scan does nothing but flush [stdout] and probe
    through that handle, each probe with a timeout of 50 ms. *)
Theorem i2cScan_uses_selected_bus isInternal (m : Machine W) :
  let h := fst (vendor (bus_getter isInternal) [] (world m)) in
  exists rest,
    trace (i2cScan isInternal m) = EvVendor (bus_getter isInternal) [] h :: rest
    /\ forallb (scan_event_on h) rest = true.
Proof.
  intros h. unfold i2cScan. rewrite trace_bind.
  assert (Hfetch :
            (if isInternal then sdk "bsp_i2c_get_handle" []
             else sdk "bsp_ext_i2c_get_handle" []) = sdk (bus_getter isInternal) [])
    by (destruct isInternal; reflexivity).
  rewrite Hfetch.
  eexists. split; [reflexivity |].
  change (value (sdk (bus_getter isInternal) [] m)) with h.
  apply emits_only_for_each. intros i acc.
  apply emits_only_for_each. intros j acc'. apply probe_one_on_bus.
Qed.

Lemma responders_count (ps : list (Z * esp_err_t)) :
  (List.length (map fst (filter responded ps)) <= List.length ps)%nat.
Proof.
  rewrite length_map. induction ps as [|p ps IH]; simpl; [lia |].
  destruct (responded p); simpl; lia.
Qed.

(** A scan makes 104 probes and returns at most 104 addresses, none of
    them twice; an address is in the result exactly when its probe
    answered [ESP_OK]. *)
Theorem i2cScan_result_shape isInternal (m : Machine W) :
  let o := i2cScan isInternal m in
  List.length (probes (trace o)) = 104%nat
  /\ (List.length (value o) <= 104)%nat
  /\ NoDup (value o)
  /\ (forall a, In a (value o) <-> In (a, ESP_OK) (probes (trace o))).
Proof.
  intros o. destruct (i2cScan_spec isInternal m) as [Hp Hv]. fold o in Hp, Hv.
  assert (Hlen : List.length (probes (trace o)) = 104%nat).
  { rewrite <- (length_map fst), Hp. reflexivity. }
  split; [exact Hlen |]. split; [| split].
  - rewrite Hv, <- Hlen. apply responders_count.
  - rewrite Hv. apply ascending_distinct, responders_sorted.
    rewrite Hp. apply addresses_from_sorted.
  - intros a. rewrite Hv. rewrite in_map_iff. split.
    + intros [[a' r] [Ha Hin]]. simpl in Ha. subst a'.
      apply filter_In in Hin. destruct Hin as [Hin Hr].
      unfold responded in Hr. simpl in Hr. apply Z.eqb_eq in Hr. subst r. exact Hin.
    + intros Hin. exists (a, ESP_OK). split; [reflexivity |].
      apply filter_In. split; [exact Hin | reflexivity].
Qed.

(** ** Operations that assign nothing *)

(** Walks down a computation that contains no assignment. *)
Ltac untouched :=
  repeat (intros;
    lazymatch goal with
    | |- keeps _ (bind _ _) => apply keeps_bind
    | |- keeps _ (ret _) => apply keeps_ret
    | |- keeps _ (for_each _ _ _) => apply keeps_for_each
    | |- keeps _ (if ?b then _ else _) => destruct b
    | |- keeps _ (match ?x with _ => _ end) => destruct x
    | |- keeps _ (emit _) => apply keeps_emit
    | |- keeps _ (call _ _) => apply keeps_call
    | |- keeps _ get_self => apply keeps_get_self
    | |- keeps _ get_temp_sensor => apply keeps_get_temp_sensor
    | |- keeps _ (set_temp_sensor _) => apply keeps_set_temp_sensor
    end).


(** ** More on the brightness *)

(** Whatever the argument, the value handed to the backlight driver is the
    clamped one, between 0 and 100; it is the value stored and the value
    logged, and no other data member is assigned. *)
Theorem setDisplayBrightness_drives_clamped (brightness : Z) (m : Machine W) :
  let v := clamp brightness 0 100 in
  let o := setDisplayBrightness brightness m in
  0 <= v <= 100
  /\ _current_lcd_brightness (self (final o)) = v
  /\ (exists r,
        trace o = [ EvInfo "hal" "set display brightness: {}%" [AInt v];
                    EvVendor "bsp_display_brightness_set" [AInt v] r ])
  /\ apart_from_brightness (self (final o)) = apart_from_brightness (self m).
Proof.
  intros v o.
  assert (Hv : 0 <= v <= 100) by (apply clamp_range; lia).
  assert (Hmod : to_uint8 v = v) by (apply Z.mod_small; lia).
  split; [exact Hv |]. split; [apply setDisplayBrightness_stores |]. split.
  - subst o. cbn. fold v. rewrite Hmod. eexists. reflexivity.
  - reflexivity.
Qed.

(** ** The temperature sensor *)

(** The sensor is installed and enabled only by a call that finds the
    static handle null; a call that finds it set reads the temperature and
    does nothing else, so after one installation that gave a handle no
    later call installs again.  Every call reads the temperature once, from
    the handle then stored. *)
Theorem getCpuTemp_installs_once (m : Machine W) :
  let o := getCpuTemp m in
  (_temp_sensor m <> 0 ->
     _temp_sensor (final o) = _temp_sensor m
     /\ trace o = [ EvVendor "temperature_sensor_get_celsius"
                      [AInt (_temp_sensor m)] (value o) ])
  /\ (_temp_sensor m = 0 ->
        exists r,
          trace o = [ EvVendor "temperature_sensor_install"
                        [ASym "range_min=20"; ASym "range_max=100"]
                        (_temp_sensor (final o));
                      EvVendor "temperature_sensor_enable"
                        [AInt (_temp_sensor (final o))] r;
                      EvVendor "temperature_sensor_get_celsius"
                        [AInt (_temp_sensor (final o))] (value o) ])
  /\ (_temp_sensor (final o) <> 0 ->
        _temp_sensor (final (getCpuTemp (final o))) = _temp_sensor (final o)
        /\ List.length (trace (getCpuTemp (final o))) = 1%nat).
Proof.
  assert (Hset : forall m0 : Machine W, _temp_sensor m0 <> 0 ->
            _temp_sensor (final (getCpuTemp m0)) = _temp_sensor m0
            /\ trace (getCpuTemp m0)
               = [ EvVendor "temperature_sensor_get_celsius"
                     [AInt (_temp_sensor m0)] (value (getCpuTemp m0)) ]).
  { intros m0 Hts. unfold getCpuTemp, sdk. cbn.
    destruct (Z.eqb_spec (_temp_sensor m0) 0); [contradiction |].
    split; reflexivity. }
  intros o. split; [apply Hset |]. split.
  - intros Hnull. subst o. unfold getCpuTemp, sdk. cbn. rewrite Hnull. cbn.
    eexists. reflexivity.
  - intros Hts. destruct (Hset (final o) Hts) as [Hsame Htr].
    split; [exact Hsame | rewrite Htr; reflexivity].
Qed.

(** ** The millisecond clock *)

(** [millis] is the microsecond timer divided by 1000 and cut to 32 bits:
    it lies below 2^32, equals the quotient until that overflows (about
    49.7 days) and from there on repeats with period 2^32 ms. *)
Theorem millis_wraps_at_32_bits (m : Machine W) :
  let t := fst (vendor "esp_timer_get_time" [] (world m)) in
  0 <= value (millis m) < 4294967296
  /\ (0 <= t < 4294967296000 -> value (millis m) = t / 1000)
  /\ (0 <= t -> value (millis m) = (t / 1000) mod 4294967296).
Proof.
  intros t.
  assert (Hval : value (millis m) = to_uint32 (Z.quot t 1000)) by reflexivity.
  rewrite Hval. unfold to_uint32. split; [| split].
  - apply Z.mod_pos_bound. lia.
  - intros Ht. rewrite Z.quot_div_nonneg by lia.
    apply Z.mod_small. split.
    + apply Z.div_pos; lia.
    + apply Z.div_lt_upper_bound; lia.
  - intros Ht. rewrite Z.quot_div_nonneg by lia. reflexivity.
Qed.

(** ** The internal bus in [init] *)

Lemma in_bind_l {A B} e (c : M W A) (k : A -> M W B) (m : Machine W) :
  In e (trace (c m)) -> In e (trace (bind c k m)).
Proof. intros H. rewrite trace_bind. apply in_or_app. left. exact H. Qed.

Lemma in_bind_r {A B} e (c : M W A) (k : A -> M W B) (m : Machine W) :
  In e (trace (k (value (c m)) (final (c m)))) -> In e (trace (bind c k m)).
Proof. intros H. rewrite trace_bind. apply in_or_app. right. exact H. Qed.

Lemma starts_devices_bind {A B} (c : M W A) (k : A -> M W B) (m : Machine W) :
  emits_only before_the_handle c ->
  starts_devices_on_one_handle (trace (k (value (c m)) (final (c m)))) ->
  starts_devices_on_one_handle (trace (bind c k m)).
Proof.
  intros Hc (before & h & rest & r1 & r2 & r3 & Ht & Hb & Hrest).
  exists (trace (c m) ++ before)%list, h, rest, r1, r2, r3. split; [| split].
  - rewrite trace_bind, Ht, app_assoc. reflexivity.
  - rewrite forallb_app, Hc, Hb. reflexivity.
  - exact Hrest.
Qed.

Lemma starts_devices_here {B} (k : Z -> M W B) (m : Machine W) :
  let got := sdk "bsp_i2c_get_handle" [] m in
  (forall h, emits_only (on_the_handle h) (k h)) ->
  (exists r1 r2 r3,
      In (EvVendor "bsp_io_expander_pi4ioe_init" [AInt (value got)] r1)
         (trace (k (value got) (final got)))
      /\ In (EvVendor "ina226.begin" [AInt (value got); AInt 65] r2)
            (trace (k (value got) (final got)))
      /\ In (EvVendor "rx8130.begin" [AInt (value got); AInt 50] r3)
            (trace (k (value got) (final got)))) ->
  starts_devices_on_one_handle (trace (bind (sdk "bsp_i2c_get_handle" []) k m)).
Proof.
  intros got Hk (r1 & r2 & r3 & H1 & H2 & H3).
  exists [], (value got), (trace (k (value got) (final got))), r1, r2, r3.
  split; [reflexivity |]. split; [reflexivity |]. split; [apply Hk |].
  split; [exact H1 |]. split; [exact H2 | exact H3].
Qed.

(** As [footprint], for a test that compares a handle with itself. *)
Ltac footprint_on_handle :=
  repeat (intros;
    lazymatch goal with
    | |- emits_only _ (bind _ _) => apply emits_only_bind
    | |- emits_only _ (ret _) => apply emits_only_ret
    | |- emits_only _ (for_each _ _ _) => apply emits_only_for_each
    | |- emits_only _ (if ?b then _ else _) => destruct b
    | |- emits_only _ (emit _) => apply emits_only_emit; reflexivity
    | |- emits_only _ (call _ _) =>
        apply emits_only_call; intros; cbn; rewrite ?Z.eqb_refl; reflexivity
    | |- emits_only _ (member _ _) => apply emits_only_member; reflexivity
    | |- emits_only _ (modify_self _) => apply emits_only_modify_self
    | |- emits_only _ get_self => apply emits_only_get_self
    end).

(** Looks for an SDK call down a chain of binds. *)
Ltac find_call :=
  first [ apply in_bind_l; left; reflexivity
        | apply in_bind_r; cbv beta; find_call ].

(** [init] fetches the handle of the internal bus once, makes no call that
    takes a bus handle before that, and afterwards starts the IO expander,
    the INA226 (address 0x41) and the RX8130 (address 0x32) on the handle it
    fetched; the handle of the external bus is not asked for. *)
Theorem init_starts_devices_on_one_handle (m : Machine W) :
  starts_devices_on_one_handle (trace (init m)).
Proof.
  unfold init.
  repeat (apply starts_devices_bind;
          [ solve [to_primitives; footprint] | cbv beta ]).
  apply starts_devices_here.
  - intros h. to_primitives. footprint_on_handle.
  - do 3 eexists. split; [| split]; find_call.
Qed.

(** ** Whole sessions *)

Lemma emits_only_run_ops ok (ops : list Op) :
  (forall op, emits_only ok (run_op op)) -> emits_only ok (@run_ops W board ops).
Proof.
  intros Hop. induction ops as [|op ops IH].
  - apply emits_only_ret.
  - cbn [run_ops]. apply emits_only_bind; [apply Hop | intros _; exact IH].
Qed.

Lemma setDisplayBrightness_backlight_ok brightness :
  emits_only backlight_call_ok (setDisplayBrightness brightness).
Proof.
  intros m. cbn.
  pose proof (clamp_range brightness 0 100 ltac:(lia)) as Hv.
  unfold to_uint8. rewrite Z.mod_small by lia.
  destruct (Z.leb_spec 0 (clamp brightness 0 100)); [| lia].
  destruct (Z.leb_spec (clamp brightness 0 100) 100); [| lia].
  reflexivity.
Qed.

(** In any sequence of operations, every value this file hands to
    [bsp_display_brightness_set] lies between 0 and 100. *)
Theorem backlight_never_above_100 (ops : list Op) (m : Machine W) :
  forallb backlight_call_ok (trace (run_ops ops m)) = true.
Proof.
  apply emits_only_run_ops. clear. intros op.
  destruct op; cbn [run_op];
    lazymatch goal with
    | |- emits_only _ (setDisplayBrightness _) =>
        apply setDisplayBrightness_backlight_ok
    | _ => to_primitives; footprint
    end.
Qed.

Lemma ts_ret {A} (a : A) : keeps_temp_sensor (@ret W A a).
Proof. intros m. reflexivity. Qed.

Lemma ts_bind {A B} (c : M W A) (k : A -> M W B) :
  keeps_temp_sensor c -> (forall a, keeps_temp_sensor (k a)) ->
  keeps_temp_sensor (bind c k).
Proof. intros Hc Hk m. rewrite final_bind, Hk, Hc. reflexivity. Qed.

Lemma ts_emit e : keeps_temp_sensor (@emit W e).
Proof. intros m. reflexivity. Qed.

Lemma ts_call {A} (g : W -> A * W) ev : keeps_temp_sensor (call g ev).
Proof. intros m. reflexivity. Qed.

Lemma ts_member fn args : keeps_temp_sensor (member fn args).
Proof. intros m. reflexivity. Qed.

Lemma ts_get_self : keeps_temp_sensor (@get_self W).
Proof. intros m. reflexivity. Qed.

Lemma ts_modify_self g : keeps_temp_sensor (@modify_self W g).
Proof. intros m. reflexivity. Qed.

Lemma ts_for_each {I A} (body : I -> A -> M W A) (l : list I) :
  (forall i acc, keeps_temp_sensor (body i acc)) ->
  forall acc, keeps_temp_sensor (for_each l acc body).
Proof.
  intros Hbody. induction l as [|i l IH]; intros acc.
  - apply ts_ret.
  - cbn [for_each]. apply ts_bind; [apply Hbody | exact IH].
Qed.

Lemma ts_scan_loop dir acc : keeps_temp_sensor (@scan_loop W dir acc).
Proof. intros m. rewrite scan_loop_final. reflexivity. Qed.

Ltac sensor_untouched :=
  repeat (intros;
    lazymatch goal with
    | |- keeps_temp_sensor (bind _ _) => apply ts_bind
    | |- keeps_temp_sensor (ret _) => apply ts_ret
    | |- keeps_temp_sensor (for_each _ _ _) => apply ts_for_each
    | |- keeps_temp_sensor (scan_loop _ _) => apply ts_scan_loop
    | |- keeps_temp_sensor (if ?b then _ else _) => destruct b
    | |- keeps_temp_sensor (match ?x with _ => _ end) => destruct x
    | |- keeps_temp_sensor (emit _) => apply ts_emit
    | |- keeps_temp_sensor (call _ _) => apply ts_call
    | |- keeps_temp_sensor (member _ _) => apply ts_member
    | |- keeps_temp_sensor (modify_self _) => apply ts_modify_self
    | |- keeps_temp_sensor get_self => apply ts_get_self
    end).

Lemma run_op_keeps_temp_sensor (op : Op) :
  op <> Op_getCpuTemp -> keeps_temp_sensor (run_op op).
Proof.
  intros Hop. destruct op; try (exfalso; apply Hop; reflexivity);
    to_primitives; sensor_untouched.
Qed.

Lemma run_op_no_install (op : Op) :
  op <> Op_getCpuTemp ->
  emits_only (fun e => negb (is_install_event e)) (run_op op).
Proof.
  intros Hop. destruct op; try (exfalso; apply Hop; reflexivity);
    to_primitives; footprint.
Qed.

Lemma getCpuTemp_when_installed (m : Machine W) :
  _temp_sensor m <> 0 ->
  _temp_sensor (final (getCpuTemp m)) = _temp_sensor m
  /\ trace (getCpuTemp m)
     = [ EvVendor "temperature_sensor_get_celsius"
           [AInt (_temp_sensor m)] (value (getCpuTemp m)) ].
Proof.
  intros Hts. unfold getCpuTemp, sdk. cbn.
  destruct (Z.eqb_spec (_temp_sensor m) 0); [contradiction |].
  split; reflexivity.
Qed.

Lemma none_of (bad : Event -> bool) (tr : list Event) :
  forallb (fun e => negb (bad e)) tr = true -> existsb bad tr = false.
Proof.
  induction tr as [|e tr IH]; simpl; [reflexivity |].
  destruct (bad e); simpl; [discriminate | exact IH].
Qed.

Lemma Op_eq_getCpuTemp (op : Op) : op = Op_getCpuTemp \/ op <> Op_getCpuTemp.
Proof. destruct op; try (right; discriminate). left. reflexivity. Qed.

(** Once the sensor handle is set, no sequence of operations changes it
    or installs the sensor again. *)
Theorem temp_sensor_installed_once (ops : list Op) (m : Machine W)
    (Hset : _temp_sensor m <> 0) :
  _temp_sensor (final (run_ops ops m)) = _temp_sensor m
  /\ existsb is_install_event (trace (run_ops ops m)) = false.
Proof.
  revert m Hset. induction ops as [|op ops IH]; intros m Hset.
  - split; reflexivity.
  - cbn [run_ops]. rewrite final_bind, trace_bind, existsb_app.
    assert (Hop : _temp_sensor (final (run_op op m)) = _temp_sensor m
                  /\ existsb is_install_event (trace (run_op op m)) = false).
    { destruct (Op_eq_getCpuTemp op) as [-> | Hother].
      - destruct (getCpuTemp_when_installed m Hset) as [Hsame Htr].
        cbn [run_op]. unfold discard. rewrite final_bind, trace_bind.
        cbn [ret final trace]. rewrite Hsame, Htr. split; reflexivity.
      - split.
        + apply run_op_keeps_temp_sensor. exact Hother.
        + apply none_of. apply run_op_no_install. exact Hother. }
    destruct Hop as [Hsame Hquiet].
    destruct (IH (final (run_op op m))) as [Hsame' Hquiet'];
      [rewrite Hsame; exact Hset |].
    rewrite Hsame', Hsame, Hquiet, Hquiet'. split; reflexivity.
Qed.

End Further.

(** ** More on the Kconfig fragment *)

(** The dependencies of the fragment: a sensor is detected automatically
    only with auto-detection on, auto-detection is on only with GC2145 on,
    and with GC2145 off there is no default format and no format index.  A
    format the user chose is the format in force. *)
Theorem gc2145_dependencies (s : Kconfig.Selection) :
  (Kconfig.CAMERA_GC2145_AUTO_DETECT_MIPI_INTERFACE_SENSOR s = true ->
     Kconfig.CAMERA_GC2145_AUTO_DETECT s = true)
  /\ (Kconfig.CAMERA_GC2145_AUTO_DETECT_DVP_INTERFACE_SENSOR s = true ->
        Kconfig.CAMERA_GC2145_AUTO_DETECT s = true)
  /\ (Kconfig.CAMERA_GC2145_AUTO_DETECT s = true -> Kconfig.CAMERA_GC2145 s = true)
  /\ (Kconfig.CAMERA_GC2145 s = false ->
        Kconfig.CAMERA_GC2145_AUTO_DETECT s = false
        /\ Kconfig.CAMERA_GC2145_MIPI_DEFAULT_FMT s = None
        /\ Kconfig.CAMERA_GC2145_MIPI_IF_FORMAT_INDEX_DAFAULT s = None
        /\ Kconfig.CAMERA_GC2145_DVP_DEFAULT_FMT s = None
        /\ Kconfig.CAMERA_GC2145_DVP_IF_FORMAT_INDEX_DAFAULT s = None)
  /\ (Kconfig.CAMERA_GC2145 s = true ->
        (forall f, Kconfig.sel_MIPI_DEFAULT_FMT s = Some f ->
                   Kconfig.CAMERA_GC2145_MIPI_DEFAULT_FMT s = Some f)
        /\ (forall f, Kconfig.sel_DVP_DEFAULT_FMT s = Some f ->
                      Kconfig.CAMERA_GC2145_DVP_DEFAULT_FMT s = Some f)).
Proof.
  unfold Kconfig.CAMERA_GC2145_AUTO_DETECT_MIPI_INTERFACE_SENSOR,
    Kconfig.CAMERA_GC2145_AUTO_DETECT_DVP_INTERFACE_SENSOR,
    Kconfig.CAMERA_GC2145_MIPI_IF_FORMAT_INDEX_DAFAULT,
    Kconfig.CAMERA_GC2145_DVP_IF_FORMAT_INDEX_DAFAULT,
    Kconfig.CAMERA_GC2145_MIPI_DEFAULT_FMT, Kconfig.CAMERA_GC2145_DVP_DEFAULT_FMT,
    Kconfig.CAMERA_GC2145_AUTO_DETECT.
  destruct (Kconfig.CAMERA_GC2145 s); simpl.
  - repeat split; try discriminate; try tauto.
    + destruct (Kconfig.sel_AUTO_DETECT s) as [[|] |]; simpl; auto.
    + destruct (Kconfig.sel_AUTO_DETECT s) as [[|] |]; simpl; auto.
    + intros f Hf. rewrite Hf. reflexivity.
    + intros f Hf. rewrite Hf. reflexivity.
  - repeat split; try discriminate; auto.
Qed.

(** With GC2145 on, both format indices are defined whatever the user
    chose: the MIPI index is 0 or 1, the DVP index is 2, 3 or 4, so the two
    never coincide, and each index names the format in force. *)
Theorem gc2145_format_indices (s : Kconfig.Selection)
    (Hon : Kconfig.CAMERA_GC2145 s = true) :
  exists fm fd i j,
    Kconfig.CAMERA_GC2145_MIPI_DEFAULT_FMT s = Some fm
    /\ Kconfig.CAMERA_GC2145_DVP_DEFAULT_FMT s = Some fd
    /\ Kconfig.CAMERA_GC2145_MIPI_IF_FORMAT_INDEX_DAFAULT s = Some i
    /\ Kconfig.CAMERA_GC2145_DVP_IF_FORMAT_INDEX_DAFAULT s = Some j
    /\ 0 <= i <= 1 /\ 2 <= j <= 4
    /\ (i = 0 <-> fm = Kconfig.MIPI_RGB565_1600x1200_7FPS)
    /\ (i = 1 <-> fm = Kconfig.MIPI_RGB565_800x600_30FPS)
    /\ (j = 2 <-> fd = Kconfig.DVP_YUV422_640x480_15FPS)
    /\ (j = 3 <-> fd = Kconfig.DVP_YUV422_1600x1200_13FPS)
    /\ (j = 4 <-> fd = Kconfig.DVP_YUV422_800x600_20FPS).
Proof.
  unfold Kconfig.CAMERA_GC2145_MIPI_IF_FORMAT_INDEX_DAFAULT,
    Kconfig.CAMERA_GC2145_DVP_IF_FORMAT_INDEX_DAFAULT,
    Kconfig.mipi_member, Kconfig.dvp_member,
    Kconfig.CAMERA_GC2145_MIPI_DEFAULT_FMT, Kconfig.CAMERA_GC2145_DVP_DEFAULT_FMT.
  rewrite Hon. simpl.
  destruct (Kconfig.sel_MIPI_DEFAULT_FMT s) as [[|] |];
    destruct (Kconfig.sel_DVP_DEFAULT_FMT s) as [[| |] |]; simpl;
    do 4 eexists; (do 4 (split; [reflexivity |]));
    repeat split; intros; try lia; try discriminate; try reflexivity.
Qed.

(** Runs on the simulated board. *)

Lemma scanSdCard_failure_returns_empty_witness :
  value (scanSdCard "photos" (boot Sim.no_card)) = []
  /\ exists fmt args,
       In (EvError fmt args) (trace (scanSdCard "photos" (boot Sim.no_card))).
Proof.
  apply (scanSdCard_failure_returns_empty "photos" (boot Sim.no_card)).
  left. exists "/sd", 25, 263. split.
  - simpl. right. left. reflexivity.
  - discriminate.
Defined.

Lemma scanSdCard_lists_directory_witness :
  readdir_yields (trace (scanSdCard "photos" (boot Sim.bench))) = Sim.photos
  /\ value (scanSdCard "photos" (boot Sim.bench))
     = [ {| name := "a.jpg"; isDir := false |};
         {| name := "raw"; isDir := true |};
         {| name := "b.jpg"; isDir := false |} ].
Proof.
  assert (Hmount : exists mount_point cs,
            In (EvSdInit mount_point cs ESP_OK)
               (trace (scanSdCard "photos" (boot Sim.bench)))).
  { exists "/sd", 25. simpl. right. left. reflexivity. }
  assert (Hopen : In (EvOpendir "/sd/photos" (Some Sim.photos))
                     (trace (scanSdCard "photos" (boot Sim.bench)))).
  { simpl. right. right. left. reflexivity. }
  destruct (scanSdCard_lists_directory "photos" (boot Sim.bench) Hmount
              "/sd/photos" Sim.photos Hopen) as [Hy _].
  split; [exact Hy | reflexivity].
Defined.

Lemma i2cScan_returns_responders_witness :
  value (i2cScan true (boot Sim.bench)) = [50; 65]
  /\ value (i2cScan false (boot Sim.no_card)) = [].
Proof.
  split.
  - destruct (i2cScan_returns_responders true (boot Sim.bench)) as (_ & Hv & _).
    rewrite Hv. reflexivity.
  - destruct (i2cScan_returns_responders false (boot Sim.no_card)) as (_ & _ & _ & _ & Hnone).
    apply Hnone. intros p Hin. vm_compute in Hin.
    repeat (destruct Hin as [<- | Hin]; [discriminate |]). destruct Hin.
Defined.

Lemma lvgl_read_cb_reports_witness :
  value (lvgl_read_cb {| point := {| px := 1; py := 2 |}; state := LV_INDEV_STATE_REL |}
           (boot Sim.bench))
  = {| point := {| px := 640; py := 360 |}; state := LV_INDEV_STATE_PR |}
  /\ value (lvgl_read_cb {| point := {| px := 1; py := 2 |}; state := LV_INDEV_STATE_PR |}
              (boot Sim.no_card))
     = {| point := {| px := 1; py := 2 |}; state := LV_INDEV_STATE_REL |}.
Proof.
  split.
  - destruct (lvgl_read_cb_reports
                {| point := {| px := 1; py := 2 |}; state := LV_INDEV_STATE_REL |}
                (boot Sim.bench)) as (_ & _ & _ & Hpressed).
    apply (Hpressed 7 1 (Sim.touch_now Sim.bench)).
    + simpl. right. left. reflexivity.
    + reflexivity.
  - destruct (lvgl_read_cb_reports
                {| point := {| px := 1; py := 2 |}; state := LV_INDEV_STATE_PR |}
                (boot Sim.no_card)) as (Hnull & _).
    apply Hnull. reflexivity.
Defined.

Lemma sd_card_mounted_false_between_operations_witness :
  _sd_card_mounted
    (self (final (run_ops [Op_init; Op_scanSdCard "photos"; Op_isSdCardMounted]
                    (boot Sim.bench)))) = false.
Proof.
  destruct (sd_card_mounted_false_between_operations (board := Sim.board))
    as (_ & _ & _ & Hinv).
  - intros fn args s w. reflexivity.
  - apply Hinv.
Defined.

Lemma display_brightness_clamped_witness :
  value (getDisplayBrightness (final (setDisplayBrightness 250 (boot Sim.bench)))) = 100
  /\ value (getDisplayBrightness (final (setDisplayBrightness 37 (boot Sim.bench)))) = 37.
Proof.
  destruct (display_brightness_clamped (board := Sim.board)) as (Hget & _).
  - intros fn args s w. reflexivity.
  - split.
    + apply (Hget 250 (boot Sim.bench)). lia.
    + apply (Hget 37 (boot Sim.bench)). lia.
Defined.

(** Pin 15 fails on the bench; the pins after it are configured all the
    same. *)
Example set_gpio_output_capability_on_bench :
  map (fun c => (fst (fst c), snd c))
      (gpio_calls (trace (set_gpio_output_capability (boot Sim.bench))))
  = [ (0, 0); (1, 0); (8, 0); (9, 0); (10, 0); (11, 0); (12, 0); (13, 0);
      (15, 258); (22, 0); (23, 0); (26, 0); (27, 0); (28, 0); (29, 0);
      (30, 0); (31, 0); (32, 0); (39, 0); (40, 0); (41, 0); (42, 0);
      (43, 0); (44, 0) ].
Proof. vm_compute. reflexivity. Qed.

Lemma gc2145_defaults_witness :
  Kconfig.CAMERA_GC2145 Kconfig.untouched = false
  /\ Kconfig.CAMERA_GC2145_AUTO_DETECT_MIPI_INTERFACE_SENSOR Kconfig.enabled_only = true
  /\ Kconfig.CAMERA_GC2145_AUTO_DETECT_DVP_INTERFACE_SENSOR Kconfig.enabled_only = false
  /\ Kconfig.CAMERA_GC2145_MIPI_IF_FORMAT_INDEX_DAFAULT Kconfig.enabled_only = Some 1
  /\ Kconfig.CAMERA_GC2145_DVP_IF_FORMAT_INDEX_DAFAULT Kconfig.enabled_only = Some 2.
Proof.
  destruct gc2145_defaults as [Hoff Hon].
  destruct (Hon Kconfig.enabled_only eq_refl) as (Hauto & Hmipi & Hdvp & Hmfmt & Hdfmt).
  split; [apply Hoff; reflexivity |].
  split; [apply Hmipi; [apply Hauto |]; reflexivity |].
  split; [apply Hdvp; [apply Hauto |]; reflexivity |].
  split; [apply Hmfmt; reflexivity | apply Hdfmt; reflexivity].
Defined.

Lemma operations_reach_their_own_device_witness :
  existsb is_sd_event (trace (run_op (Op_i2cScan true) (boot Sim.bench))) = false
  /\ existsb is_probe_event (trace (run_op (Op_scanSdCard "photos") (boot Sim.bench)))
     = false
  /\ existsb is_gpio_event (trace (run_op (Op_scanSdCard "photos") (boot Sim.bench)))
     = false.
Proof.
  destruct (operations_reach_their_own_device (Op_i2cScan true) (boot Sim.bench) eq_refl)
    as (Hsd & _).
  destruct (operations_reach_their_own_device (Op_scanSdCard "photos") (boot Sim.bench)
              eq_refl) as (_ & Hprobe & Hgpio & _).
  split; [| split].
  - exact (Hsd (fun dirPath E => eq_ind (Op_i2cScan true)
                  (fun op => match op with Op_i2cScan _ => True | _ => False end)
                  I _ E)).
  - exact (Hprobe (fun isInternal E => eq_ind (Op_scanSdCard "photos")
                     (fun op => match op with Op_scanSdCard _ => True | _ => False end)
                     I _ E)).
  - exact (Hgpio (fun E => eq_ind (Op_scanSdCard "photos")
                    (fun op => match op with Op_scanSdCard _ => True | _ => False end)
                    I _ E)).
Defined.

Lemma scanSdCard_error_only_on_failure_witness :
  value (scanSdCard "empty" (boot bench_with_empty_dir)) = []
  /\ existsb is_error_event (trace (scanSdCard "empty" (boot bench_with_empty_dir)))
     = false.
Proof.
  destruct (scanSdCard_error_only_on_failure "empty" (boot bench_with_empty_dir))
    as [_ Hempty].
  apply (Hempty "/sd/empty" [ {| d_name := "."; d_type := 4 |};
                              {| d_name := ".."; d_type := 4 |} ]).
  - simpl. right. right. left. reflexivity.
  - intros e [<- | [<- | []]]; reflexivity.
Defined.

Lemma gc2145_format_indices_witness :
  exists fm fd,
    Kconfig.CAMERA_GC2145_MIPI_DEFAULT_FMT Kconfig.enabled_only = Some fm
    /\ Kconfig.CAMERA_GC2145_DVP_DEFAULT_FMT Kconfig.enabled_only = Some fd.
Proof.
  destruct (gc2145_format_indices Kconfig.enabled_only eq_refl)
    as (fm & fd & i & j & Hm & Hd & _).
  exists fm, fd. split; assumption.
Defined.

Lemma temp_sensor_installed_once_witness :
  existsb is_install_event
    (trace (run_ops [Op_getCpuTemp; Op_init; Op_getCpuTemp]
              (final (getCpuTemp (boot Sim.bench))))) = false.
Proof.
  assert (Hset : _temp_sensor (final (getCpuTemp (boot Sim.bench))) <> 0).
  { vm_compute. discriminate. }
  destruct (temp_sensor_installed_once [Op_getCpuTemp; Op_init; Op_getCpuTemp]
              (final (getCpuTemp (boot Sim.bench))) Hset) as [_ Hquiet].
  exact Hquiet.
Defined.
